(** * Alien Probe business scanner: the Flask backend

    A shallow embedding of [server/api_routes.py], [server/storage_flask.py]
    and the static routes of [server/flask_app.py], with the properties the
    specification states about them.

    Python values are dynamically typed, so the request body, the rows'
    columns and the JSON responses all live in one type [value].  Code that
    can raise runs in the error monad [res]; the route handlers catch every
    exception and answer 500, as their [try]/[except Exception] blocks do.
    The data store is the list of rows of the [ScanResult] table, threaded
    through the storage functions. *)

From Stdlib Require Import String Ascii List ZArith Lia Bool.
From Stdlib Require Import Sorting.Sorted Sorting.Permutation.
Import ListNotations.
Open Scope string_scope.
Open Scope Z_scope.

#[local] Set Warnings "-register-all,-notation-for-abbreviation".

(** ** Python values *)

Module Py.

(** The values [request.get_json()] can produce, which are also the values
    the handlers build.  A [dict] keeps its insertion order, so it is an
    association list with distinct keys.  [VInt] stands for JSON numbers. *)
Inductive value : Type :=
| VNone
| VBool (b : bool)
| VInt (z : Z)
| VStr (s : string)
| VList (l : list value)
| VDict (d : list (string * value)).

Definition dict := list (string * value).

(** The exceptions the modelled code can meet. *)
Inductive exn : Type :=
| TypeError
| AttributeError
| KeyError
| ValueError
| FileNotFoundError
| NotFound
| RuntimeError.

Inductive res (A : Type) : Type :=
| Ok (a : A)
| Raise (e : exn).
Arguments Ok {A} a.
Arguments Raise {A} e.

Definition bind {A B} (m : res A) (k : A -> res B) : res B :=
  match m with
  | Ok a => k a
  | Raise e => Raise e
  end.

(** [bool(v)]: the truth value Python's [if], [not] and [or] use. *)
Definition truthy (v : value) : bool :=
  match v with
  | VNone => false
  | VBool b => b
  | VInt z => negb (z =? 0)
  | VStr s => negb (String.eqb s "")
  | VList l => match l with [] => false | _ => true end
  | VDict d => match d with [] => false | _ => true end
  end.

(** [a or b] *)
Definition py_or (a b : value) : value := if truthy a then a else b.

(** *** Dictionaries *)

Fixpoint lookup (k : string) (d : dict) : option value :=
  match d with
  | [] => None
  | (k', v) :: d' => if String.eqb k k' then Some v else lookup k d'
  end.

(** [k in d] *)
Definition contains (k : string) (d : dict) : bool :=
  match lookup k d with Some _ => true | None => false end.

(** [d[k] = v]: an existing key keeps its position, a new one goes last. *)
Fixpoint set (k : string) (v : value) (d : dict) : dict :=
  match d with
  | [] => [(k, v)]
  | (k', v') :: d' =>
      if String.eqb k k' then (k, v) :: d' else (k', v') :: set k v d'
  end.

(** [d.update(u)] for a dict [u], whose entries are set from first to last. *)
Definition update (d u : dict) : dict :=
  fold_left (fun acc kv => set (fst kv) (snd kv) acc) u d.

(** [d.get(k, default)] where [d] is a dict. *)
Definition dget (d : dict) (k : string) (default : value) : value :=
  match lookup k d with Some v => v | None => default end.

(** [d.get(k, default)] on an arbitrary value: only a dict has [get]. *)
Definition get (d : value) (k : string) (default : value) : res value :=
  match d with
  | VDict d => Ok (dget d k default)
  | _ => Raise AttributeError
  end.

(** [d[k]] where [d] is a dict. *)
Definition getitem (d : dict) (k : string) : res value :=
  match lookup k d with
  | Some v => Ok v
  | None => Raise KeyError
  end.

(** [v[k]] for a string [k] on an arbitrary value. *)
Definition subscript (v : value) (k : string) : res value :=
  match v with
  | VDict d => getitem d k
  | _ => Raise TypeError
  end.

(** [v.update(u)] on an arbitrary value: only a dict has [update]. *)
Definition py_update (v : value) (u : dict) : res value :=
  match v with
  | VDict d => Ok (VDict (update d u))
  | _ => Raise AttributeError
  end.

(** [len(v)] *)
Definition len (v : value) : res Z :=
  match v with
  | VStr s => Ok (Z.of_nat (String.length s))
  | VList l => Ok (Z.of_nat (List.length l))
  | VDict d => Ok (Z.of_nat (List.length d))
  | _ => Raise TypeError
  end.

(** *** [str.strip()] *)

(** The characters [str.isspace] accepts among the code points below 256:
    tab to carriage return, the four separators 0x1c-0x1f, the space,
    NEL (0x85) and the no-break space (0xa0). *)
Definition is_space (c : ascii) : bool :=
  let n := nat_of_ascii c in
  ((9 <=? n) && (n <=? 13))%nat || ((28 <=? n) && (n <=? 32))%nat
  || (n =? 133)%nat || (n =? 160)%nat.

Fixpoint lstrip (s : string) : string :=
  match s with
  | EmptyString => EmptyString
  | String c s' => if is_space c then lstrip s' else s
  end.

Fixpoint rstrip (s : string) : string :=
  match s with
  | EmptyString => EmptyString
  | String c s' =>
      match rstrip s' with
      | EmptyString => if is_space c then EmptyString else String c EmptyString
      | r => String c r
      end
  end.

Definition str_strip (s : string) : string := rstrip (lstrip s).

(** [v.strip()] on an arbitrary value: only a [str] has it here. *)
Definition strip (v : value) : res string :=
  match v with
  | VStr s => Ok (str_strip s)
  | _ => Raise AttributeError
  end.

(** Every character of [s] is white space. *)
Fixpoint all_space (s : string) : bool :=
  match s with
  | EmptyString => true
  | String c s' => is_space c && all_space s'
  end.

(** The first, and the last, character of [s] is white space. *)
Definition first_is_space (s : string) : bool :=
  match s with
  | EmptyString => false
  | String c _ => is_space c
  end.

Fixpoint last_is_space (s : string) : bool :=
  match s with
  | EmptyString => false
  | String c EmptyString => is_space c
  | String _ s' => last_is_space s'
  end.

(** [s.startswith(p)] *)
Definition startswith (p s : string) : bool := String.prefix p s.

End Py.

Import Py.

Declare Scope res_scope.
Delimit Scope res_scope with res.
Notation "x <- m ;; k" := (bind m (fun x => k))
  (at level 61, m at next level, right associativity) : res_scope.
Open Scope res_scope.

(** ** HTTP responses *)

(** What a view returns: [jsonify(body), code], the code being 200 when the
    view gives none; a served file is a response of its own kind. *)
Inductive payload : Type :=
| Json (body : value)
| File (path : string).

Record response : Type := mkResponse {
  status_code : Z;
  content : payload
}.

Definition jsonify (body : value) (code : Z) : response :=
  mkResponse code (Json body).

(** [body[k]] of a JSON response whose body is an object. *)
Definition body_field (r : response) (k : string) : option value :=
  match content r with
  | Json (VDict d) => lookup k d
  | _ => None
  end.

(** ** The library functions the application calls

    [urllib.parse.urlparse], [json.dumps], [json.loads],
    [datetime.isoformat] and the generation of row identifiers are not code
    of this repository.  The application is modelled over any such functions
    (section [App] below); this module gives one executable instance of each,
    on which the examples are evaluated. *)

(** [datetime.utcnow()], in microseconds since the epoch. *)
Definition Time := Z.

(** The six components [urlparse] returns. *)
Record ParseResult : Type := mkParseResult {
  scheme : string;
  netloc : string;
  path : string;
  params : string;
  query : string;
  fragment : string
}.

Module Lib.

(** *** Text helpers *)

Definition digit (n : Z) : ascii := ascii_of_nat (48 + Z.to_nat n).

(** The last [width] decimal digits of [n >= 0], most significant first,
    in front of [acc]. *)
Fixpoint digits (width : nat) (n : Z) (acc : string) : string :=
  match width with
  | O => acc
  | S w => digits w (n / 10) (String (digit (n mod 10)) acc)
  end.

Fixpoint count_digits (fuel : nat) (n : Z) : nat :=
  match fuel with
  | O => 1%nat
  | S f => if n <? 10 then 1%nat else S (count_digits f (n / 10))
  end.

Definition decimal (z : Z) : string :=
  let n := Z.abs z in
  let d := digits (count_digits (Z.to_nat (Z.log2 n)) n) n "" in
  if z <? 0 then String "-" d else d.

Fixpoint join (sep : string) (l : list string) : string :=
  match l with
  | [] => ""
  | [x] => x
  | x :: l' => x ++ sep ++ join sep l'
  end.

(** *** [datetime.isoformat] *)

(** Year, month and day of the day number [z] counted from 1970-01-01. *)
Definition civil_from_days (z : Z) : Z * Z * Z :=
  let z := z + 719468 in
  let era := z / 146097 in
  let doe := z - era * 146097 in
  let yoe := (doe - doe / 1460 + doe / 36524 - doe / 146096) / 365 in
  let doy := doe - (365 * yoe + yoe / 4 - yoe / 100) in
  let mp := (5 * doy + 2) / 153 in
  let d := doy - (153 * mp + 2) / 5 + 1 in
  let m := if mp <? 10 then mp + 3 else mp - 9 in
  let y := yoe + era * 400 in
  (if m <=? 2 then y + 1 else y, m, d).

Definition isoformat (t : Time) : string :=
  let us := t mod 1000000 in
  let secs := t / 1000000 in
  let sod := secs mod 86400 in
  let '(y, m, d) := civil_from_days (secs / 86400) in
  digits 4 y "" ++ "-" ++ digits 2 m "" ++ "-" ++ digits 2 d "" ++ "T"
  ++ digits 2 (sod / 3600) "" ++ ":" ++ digits 2 (sod / 60 mod 60) "" ++ ":"
  ++ digits 2 (sod mod 60) ""
  ++ (if us =? 0 then "" else "." ++ digits 6 us "").

(** *** [urllib.parse.urlparse] *)

Definition is_alpha (c : ascii) : bool :=
  let n := nat_of_ascii c in
  (((65 <=? n) && (n <=? 90)) || ((97 <=? n) && (n <=? 122)))%nat.

Definition is_scheme_char (c : ascii) : bool :=
  let n := nat_of_ascii c in
  (is_alpha c || ((48 <=? n) && (n <=? 57)) || (n =? 43) || (n =? 45)
   || (n =? 46))%nat.

Definition lower (c : ascii) : ascii :=
  let n := nat_of_ascii c in
  if ((65 <=? n) && (n <=? 90))%nat then ascii_of_nat (n + 32) else c.

Fixpoint map_string (f : ascii -> ascii) (s : string) : string :=
  match s with
  | EmptyString => EmptyString
  | String c s' => String (f c) (map_string f s')
  end.

Fixpoint forallb_string (f : ascii -> bool) (s : string) : bool :=
  match s with
  | EmptyString => true
  | String c s' => f c && forallb_string f s'
  end.

Fixpoint existsb_string (f : ascii -> bool) (s : string) : bool :=
  match s with
  | EmptyString => false
  | String c s' => f c || existsb_string f s'
  end.

(** [s] cut at the first character satisfying [stop]: what precedes it, and
    the rest from that character on. *)
Fixpoint break (stop : ascii -> bool) (s : string) : string * string :=
  match s with
  | EmptyString => (EmptyString, EmptyString)
  | String c s' =>
      if stop c then (EmptyString, s)
      else let (a, b) := break stop s' in (String c a, b)
  end.

Definition is_char (c d : ascii) : bool := Ascii.eqb c d.

(** [s.partition(c)]: before the first [c], and after it. *)
Definition partition (c : ascii) (s : string) : string * string :=
  let (a, b) := break (is_char c) s in
  (a, match b with String _ b' => b' | EmptyString => EmptyString end).

(** The scheme of [urlsplit]: a letter followed by scheme characters, up to
    the first colon. *)
Definition split_scheme (url : string) : string * string :=
  let (a, b) := break (is_char ":") url in
  match a, b with
  | String c _, String _ rest =>
      if is_alpha c && forallb_string is_scheme_char a
      then (map_string lower a, rest) else (EmptyString, url)
  | _, _ => (EmptyString, url)
  end.

Definition is_netloc_end (c : ascii) : bool :=
  is_char "/" c || is_char "?" c || is_char "#" c.

(** The last segment of the path gives the parameters after its first
    semicolon, as [urlparse] (unlike [urlsplit]) cuts them. *)
Fixpoint split_params (p : string) : string * string :=
  match p with
  | EmptyString => (EmptyString, EmptyString)
  | String c p' =>
      let (a, b) := split_params p' in
      if is_char "/" c then (String c a, b)
      else if existsb_string (is_char "/") p' then (String c a, b)
      else if is_char ";" c then (EmptyString, p')
      else (String c a, b)
  end.

Definition urlparse (url : string) : res ParseResult :=
  let url := lstrip url in
  let (sch, rest) := split_scheme url in
  let '(net, rest, bad) :=
    match rest with
    | String "/" (String "/" r) =>
        let (n, r') := break is_netloc_end r in
        (n, r', xorb (existsb_string (is_char "[") n)
                     (existsb_string (is_char "]") n))
    | _ => (EmptyString, rest, false)
    end in
  if bad then Raise ValueError
  else
    let (rest, frag) := partition "#" rest in
    let (rest, qry) := partition "?" rest in
    let (pth, prm) := split_params rest in
    Ok (mkParseResult sch net pth prm qry frag).

(** *** [json.dumps] and [json.loads] *)

Definition escape_char (c : ascii) (k : string) : string :=
  if is_char "034" c then String "\" (String "034" k)
  else if is_char "\" c then String "\" (String "\" k)
  else if is_char "010" c then String "\" (String "n" k)
  else if is_char "009" c then String "\" (String "t" k)
  else String c k.

Fixpoint escape (s : string) : string :=
  match s with
  | EmptyString => EmptyString
  | String c s' => escape_char c (escape s')
  end.

Definition quote (s : string) : string :=
  String "034" (escape s ++ String "034" EmptyString).

(** [json.dumps(v)] with the default separators. *)
Fixpoint dumps (v : value) : string :=
  match v with
  | VNone => "null"
  | VBool true => "true"
  | VBool false => "false"
  | VInt z => decimal z
  | VStr s => quote s
  | VList l => "[" ++ join ", " (map dumps l) ++ "]"
  | VDict d =>
      "{" ++ join ", " (map (fun kv => quote (fst kv) ++ ": " ++ dumps (snd kv)) d)
      ++ "}"
  end.

Definition is_json_space (c : ascii) : bool :=
  is_char " " c || is_char "010" c || is_char "009" c || is_char "013" c.

Fixpoint skip_ws (s : string) : string :=
  match s with
  | String c s' => if is_json_space c then skip_ws s' else s
  | EmptyString => EmptyString
  end.

(** The characters of a string literal after its opening quote, and what
    follows the closing quote. *)
Fixpoint parse_chars (s : string) : option (string * string) :=
  match s with
  | EmptyString => None
  | String c s' =>
      if is_char "034" c then Some (EmptyString, s')
      else if is_char "\" c then
        match s' with
        | String e s'' =>
            let d := if is_char "n" e then "010"%char
                     else if is_char "t" e then "009"%char else e in
            match parse_chars s'' with
            | Some (a, r) => Some (String d a, r)
            | None => None
            end
        | EmptyString => None
        end
      else
        match parse_chars s' with
        | Some (a, r) => Some (String c a, r)
        | None => None
        end
  end.

Definition is_digit (c : ascii) : bool :=
  let n := nat_of_ascii c in ((48 <=? n) && (n <=? 57))%nat.

Fixpoint parse_digits (s : string) (acc : Z) : Z * string :=
  match s with
  | String c s' =>
      if is_digit c
      then parse_digits s' (10 * acc + Z.of_nat (nat_of_ascii c - 48))
      else (acc, s)
  | EmptyString => (acc, s)
  end.

(** One JSON value at the head of [s], and the rest of [s]; the fuel bounds
    the number of values, elements and members read.  The members of an
    object are read in order and then entered in a dict one by one, so that
    a repeated key keeps its last value. *)
Fixpoint parse_value (fuel : nat) (s : string) : option (value * string) :=
  match fuel with
  | O => None
  | S f =>
      match skip_ws s with
      | String "n" (String "u" (String "l" (String "l" r))) => Some (VNone, r)
      | String "t" (String "r" (String "u" (String "e" r))) =>
          Some (VBool true, r)
      | String "f" (String "a" (String "l" (String "s" (String "e" r)))) =>
          Some (VBool false, r)
      | String "034" r =>
          match parse_chars r with
          | Some (a, r') => Some (VStr a, r')
          | None => None
          end
      | String "[" r =>
          match skip_ws r with
          | String "]" r' => Some (VList [], r')
          | _ =>
              match parse_elems f r with
              | Some (l, r') => Some (VList l, r')
              | None => None
              end
          end
      | String "{" r =>
          match skip_ws r with
          | String "}" r' => Some (VDict [], r')
          | _ =>
              match parse_members f r with
              | Some (d, r') => Some (VDict (update [] d), r')
              | None => None
              end
          end
      | String "-" (String c r) =>
          if is_digit c
          then let (n, r') := parse_digits (String c r) 0 in Some (VInt (- n), r')
          else None
      | String c r =>
          if is_digit c
          then let (n, r') := parse_digits (String c r) 0 in Some (VInt n, r')
          else None
      | EmptyString => None
      end
  end
with parse_elems (fuel : nat) (s : string) : option (list value * string) :=
  match fuel with
  | O => None
  | S f =>
      match parse_value f s with
      | Some (v, r) =>
          match skip_ws r with
          | String "]" r' => Some ([v], r')
          | String "," r' =>
              match parse_elems f r' with
              | Some (l, r'') => Some (v :: l, r'')
              | None => None
              end
          | _ => None
          end
      | None => None
      end
  end
with parse_members (fuel : nat) (s : string) : option (dict * string) :=
  match fuel with
  | O => None
  | S f =>
      match skip_ws s with
      | String "034" r =>
          match parse_chars r with
          | Some (k, r1) =>
              match skip_ws r1 with
              | String ":" r2 =>
                  match parse_value f r2 with
                  | Some (v, r3) =>
                      match skip_ws r3 with
                      | String "}" r4 => Some ([(k, v)], r4)
                      | String "," r4 =>
                          match parse_members f r4 with
                          | Some (d, r5) => Some ((k, v) :: d, r5)
                          | None => None
                          end
                      | _ => None
                      end
                  | None => None
                  end
              | _ => None
              end
          | None => None
          end
      | _ => None
      end
  end.

(** [json.loads(s)]: [ValueError] (its subclass [JSONDecodeError]) when [s]
    is not one JSON value. *)
Definition loads (s : string) : res value :=
  match parse_value (S (String.length s)) s with
  | Some (v, r) =>
      match skip_ws r with
      | EmptyString => Ok v
      | _ => Raise ValueError
      end
  | None => Raise ValueError
  end.

(** *** Row identifiers *)

(** A new identifier: one character longer than the longest one in use. *)
Fixpoint longest (ids : list string) : string :=
  match ids with
  | [] => EmptyString
  | i :: ids' =>
      let l := longest ids' in
      if (String.length l <? String.length i)%nat then i else l
  end.

Definition new_id (ids : list string) : string := String "1" (longest ids).

End Lib.

(** ** The data model *)

(** Modelled from the spec: the [ScanResult] model of [server/models.py],
    which is not among the sources.  A row has the identifier it was given
    on insert, the four columns the storage functions write (they hold
    whatever Python value is assigned to them) and the two timestamps. *)
Record ScanResult : Type := mkScanResult {
  id : string;
  business_name : value;
  website : value;
  scan_data : value;
  status : value;
  created_at : Time;
  updated_at : Time
}.

(** The table: its rows, in insertion order. *)
Definition Table := list ScanResult.

(** The closure [delayed_completion] runs in its own thread: it sleeps until
    [wake_at] and then calls [complete_scan], which has captured the dict
    [scan_result] that [create_scan_result] returned. *)
Record Thread : Type := mkThread {
  wake_at : Time;
  scan_result : value
}.

(** What a request handler can read and change: the table and the threads
    that have been started and have not run yet. *)
Record World : Type := mkWorld {
  rows : Table;
  threads : list Thread
}.

(** The state and error monad of the handlers.  An exception leaves the
    state as it was when it was raised. *)
Definition M (A : Type) : Type := World -> res A * World.

Definition ret {A} (a : A) : M A := fun w => (Ok a, w).

Definition mbind {A B} (m : M A) (k : A -> M B) : M B :=
  fun w =>
    match m w with
    | (Ok a, w') => k a w'
    | (Raise e, w') => (Raise e, w')
    end.

(** A computation that only reads its arguments. *)
Definition lift {A} (r : res A) : M A := fun w => (r, w).

(** A storage call: it sees and changes the table only. *)
Definition on_table {A} (f : Table -> res A * Table) : M A :=
  fun w => let (r, t) := f (rows w) in (r, mkWorld t (threads w)).

(** [threading.Thread(target=...).start()] *)
Definition start_thread (th : Thread) : M unit :=
  fun w => (Ok tt, mkWorld (rows w) (threads w ++ [th])%list).

(** [try: m  except Exception: h] *)
Definition try_except {A} (m : M A) (h : exn -> M A) : M A :=
  fun w =>
    match m w with
    | (Ok a, w') => (Ok a, w')
    | (Raise e, w') => h e w'
    end.

Declare Scope M_scope.
Delimit Scope M_scope with M.
Notation "x <- m ;; k" := (mbind m (fun x => k))
  (at level 61, m at next level, right associativity) : M_scope.
Notation "x <~ r ;; k" := (mbind (lift r) (fun x => k))
  (at level 61, r at next level, right associativity) : M_scope.

(** [time.sleep(2)], in microseconds. *)
Definition completion_delay : Z := 2000000.

(** ** Sample data

    The request bodies, instants and world the examples are run on. *)

Module Example.

Definition acme : dict :=
  [("businessName", VStr "Acme Co"); ("website", VStr "https://acme.example")].

Definition no_name : dict := [("website", VStr "https://acme.example")].

Definition no_scheme : dict :=
  [("businessName", VStr "Acme Co"); ("website", VStr "acme.example")].

Definition blank_site : dict :=
  [("businessName", VStr "  Acme Co "); ("website", VStr "   ")].

Definition null_name : dict := [("businessName", VNone)].

(** 2024-11-04T00:00:00, and instants of the seconds that follow. *)
Definition midnight : Time := 1730678400000000.

Definition after_seconds (n : Z) : Time := midnight + n * 1000000.

Definition no_rows : World := mkWorld [] [].

(** Two rows created at the same instant. *)
Definition first_row : ScanResult :=
  mkScanResult "1" (VStr "Acme Co") (VStr "https://acme.example") VNone
    (VStr "scanning") midnight midnight.

Definition second_row : ScanResult :=
  mkScanResult "2" (VStr "Bolt Ltd") VNone VNone (VStr "scanning")
    midnight midnight.

(** A database that lists the rows of one creation time in the order of
    their insertion, and one that lists them in the opposite order. *)
Definition oldest_first (r x : ScanResult) : bool := true.

Definition latest_first (r x : ScanResult) : bool := false.

(** A static folder without a bundle, and one with a bundle of two
    files. *)
Definition no_bundle (directory path : string) : bool := false.

Definition bundle (directory path : string) : bool :=
  ((path =? "index.html") || (path =? "assets/app.js"))%string.

End Example.

Section App.

#[local] Set Default Proof Using "Type".

(** The library functions, as parameters.  [loads] and [urlparse] return
    [Raise] where the Python function raises; [new_id] gives the identifier
    of a row inserted in a table that holds the given ones; [is_file] tells
    whether a path, joined to a directory, leads to a file in it;
    [tie_break r x] tells whether the database lists the row [r] before the
    row [x] when an [ORDER BY] does not tell them apart. *)
Variable urlparse : string -> res ParseResult.
Variable dumps : value -> string.
Variable loads : string -> res value.
Variable isoformat : Time -> string.
Variable new_id : list string -> string.
Variable static_folder : string.
Variable is_file : string -> string -> bool.
Variable tie_break : ScanResult -> ScanResult -> bool.

(** ** [server/storage_flask.py]

    The methods of the one [FlaskStorage] instance, [storage], under the
    names their callers use: [storage.get_scan_result] is
    [storage_get_scan_result], and so on. *)

(** Modelled from the spec: [ScanResult.to_dict] of [server/models.py], the
    detached copy of a row under the field names of the data model. *)
Definition to_dict (r : ScanResult) : value :=
  VDict [("id", VStr (id r));
         ("businessName", business_name r);
         ("website", website r);
         ("status", status r);
         ("scanData", scan_data r);
         ("createdAt", VStr (isoformat (created_at r)));
         ("updatedAt", VStr (isoformat (updated_at r)))].

(** [ScanResult.query.filter_by(id=scan_id).first()] *)
Definition filter_by_id (scan_id : value) (t : Table) : option ScanResult :=
  match scan_id with
  | VStr s => find (fun r => String.eqb (id r) s) t
  | _ => None
  end.

Definition storage_get_scan_result (scan_id : value) (t : Table) : value :=
  match filter_by_id scan_id t with
  | Some result => to_dict result
  | None => VNone
  end.

(** [order_by(ScanResult.created_at.desc())]: a row goes in front of the
    first row that is older than it, or that has its creation time and that
    the database lists after it.  The query names no second key, so the
    order among rows of one creation time is the database's. *)
Fixpoint insert_desc (r : ScanResult) (l : list ScanResult) : list ScanResult :=
  match l with
  | [] => [r]
  | x :: l' =>
      if created_at x <? created_at r then r :: x :: l'
      else if (created_at x =? created_at r) && tie_break r x
           then r :: x :: l'
           else x :: insert_desc r l'
  end.

Definition order_by_created_at_desc (t : Table) : list ScanResult :=
  fold_right insert_desc [] t.

Definition storage_get_all_scan_results (t : Table) : list value :=
  map to_dict (order_by_created_at_desc t).

(** [create_scan_result]: the row that [db.session.add] and [commit]
    insert.  Modelled from the spec: the identifier generated on insert and
    the two timestamps, set to the time of the insert, are defaults of the
    columns of [server/models.py]. *)
Definition storage_create_scan_result (now : Time) (scan_data : dict) (t : Table)
  : res value * Table :=
  match getitem scan_data "businessName" with
  | Raise e => (Raise e, t)
  | Ok name =>
      let result :=
        mkScanResult (new_id (map id t)) name
          (dget scan_data "website" VNone)
          (dget scan_data "scanData" VNone)
          (dget scan_data "status" (VStr "pending"))
          now now in
      (Ok (to_dict result), (t ++ [result])%list)
  end.

(** [if k in updates: column = updates[k]] *)
Definition assign (updates : dict) (k : string) (column : value) : value :=
  if contains k updates then dget updates k VNone else column.

(** [commit] of a changed row: it replaces the row it was read from. *)
Fixpoint commit (r' : ScanResult) (t : Table) : Table :=
  match t with
  | [] => []
  | r :: t' =>
      if String.eqb (id r) (id r') then r' :: t' else r :: commit r' t'
  end.

Definition storage_update_scan_result (now : Time) (scan_id : value) (updates : dict)
    (t : Table) : value * Table :=
  match filter_by_id scan_id t with
  | None => (VNone, t)
  | Some result =>
      let result :=
        mkScanResult (id result)
          (assign updates "businessName" (business_name result))
          (assign updates "website" (website result))
          (assign updates "scanData" (scan_data result))
          (assign updates "status" (status result))
          (created_at result)
          now in
      (to_dict result, commit result t)
  end.

(** ** [server/api_routes.py] *)

Definition validate_url (url : string) : bool :=
  match urlparse url with
  | Ok result => truthy (VStr (scheme result)) && truthy (VStr (netloc result))
  | Raise _ => false
  end.

Definition validate_scan_request (data : value) : res (list string) :=
  let errors := [] in
  name <- get data "businessName" VNone ;;
  let errors :=
    if negb (truthy name) then (errors ++ ["Business name is required"])%list
    else errors in
  name <- get data "businessName" (VStr "") ;;
  n <- len name ;;
  let errors :=
    if n <? 1
    then (errors ++ ["Business name must be at least 1 character long"])%list
    else errors in
  site <- get data "website" (VStr "") ;;
  website <- strip site ;;
  let errors :=
    if truthy (VStr website) && negb (validate_url website)
    then (errors ++ ["Please enter a valid URL"])%list
    else errors in
  Ok errors.

Definition no_data_response : response :=
  jsonify (VDict [("success", VBool false);
                  ("error", VStr "No data provided")]) 400.

Definition validation_failed_response (validation_errors : list string)
  : response :=
  jsonify (VDict [("success", VBool false);
                  ("error", VStr "Validation failed");
                  ("details", VList (map VStr validation_errors))]) 400.

Definition scan_initiated_response (scan_id : value) : response :=
  jsonify (VDict [("success", VBool true);
                  ("scanId", scan_id);
                  ("message", VStr "Scan initiated successfully")]) 200.

Definition internal_error_response : response :=
  jsonify (VDict [("success", VBool false);
                  ("error", VStr "Internal server error")]) 500.

(** The document [create_scan] serialises into [scanData]. *)
Definition initial_document (now : Time) (site : value) : dict :=
  [("timestamp", VStr (isoformat now));
   ("websiteAnalysis",
    if truthy site then VStr "Website found and analyzed"
    else VStr "No website provided");
   ("businessScore", VInt 85);
   ("scanning", VBool true)].

(** What [complete_scan] merges into the document. *)
Definition completion_fields (now : Time) : dict :=
  [("completed", VBool true);
   ("scanning", VBool false);
   ("insights", VList [VStr "Strong online presence detected";
                       VStr "Potential for digital expansion";
                       VStr "Competitive market position"]);
   ("completedAt", VStr (isoformat now))].

(** [json.loads(v)]: the argument has to be a [str]. *)
Definition json_loads (v : value) : res value :=
  match v with
  | VStr s => loads s
  | _ => Raise TypeError
  end.

Open Scope M_scope.

(** A call of a method of [storage] where an application context is
    active, or where none is.  [db] is bound to the application by
    [db.init_app(app)] ([flask_app.py], line 32), so that [ScanResult.query]
    and [db.session] need an active application context and raise
    [RuntimeError] without one; this is why [create_all] is called under
    [with app.app_context()].  Flask activates a context for the time of
    each request; code run in a thread of its own has none unless it
    activates one. *)
Definition storage_call {A} (in_app_context : bool)
    (f : Table -> res A * Table) : M A :=
  if in_app_context then on_table f else lift (Raise RuntimeError).

(** The closure [complete_scan], run at time [now] on the dict
    [scan_result] it captured, with or without an application context. *)
Definition complete_scan (in_app_context : bool) (now : Time)
    (scan_result : value) : M unit :=
  text <~ subscript scan_result "scanData" ;;
  completed_data <~ json_loads (py_or text (VStr "{}")) ;;
  completed_data <~ py_update completed_data (completion_fields now) ;;
  scan_id <~ subscript scan_result "id" ;;
  _ <- storage_call in_app_context (fun t =>
         let (r, t') :=
           storage_update_scan_result now scan_id
             [("status", VStr "completed");
              ("scanData", VStr (dumps completed_data))] t in
         (Ok r, t')) ;;
  ret tt.

(** [POST /api/scan], handled at time [now] on the body [data] that
    [request.get_json()] returned ([VNone] when there is none). *)
Definition create_scan (now : Time) (data : value) : M response :=
  try_except
    (if negb (truthy data) then ret no_data_response
     else
       validation_errors <~ validate_scan_request data ;;
       if truthy (VList (map VStr validation_errors))
       then ret (validation_failed_response validation_errors)
       else
         name <~ subscript data "businessName" ;;
         name <~ strip name ;;
         site <~ get data "website" (VStr "") ;;
         site <~ strip site ;;
         supplied <~ get data "website" VNone ;;
         let scan_data :=
           [("businessName", VStr name);
            ("website", py_or (VStr site) VNone);
            ("status", VStr "scanning");
            ("scanData",
             VStr (dumps (VDict (initial_document now supplied))))] in
         scan_result <- on_table (storage_create_scan_result now scan_data) ;;
         _ <- start_thread (mkThread (now + completion_delay) scan_result) ;;
         scan_id <~ subscript scan_result "id" ;;
         ret (scan_initiated_response scan_id))
    (fun _ => ret internal_error_response).

Definition fetch_failed_response (what : string) : response :=
  jsonify (VDict [("success", VBool false); ("error", VStr what)]) 500.

(** [GET /api/results] *)
Definition get_all_results : M response :=
  try_except
    (results <- on_table (fun t => (Ok (storage_get_all_scan_results t), t)) ;;
     ret (jsonify (VList results) 200))
    (fun _ => ret (fetch_failed_response "Failed to fetch results")).

Definition scan_not_found_response : response :=
  jsonify (VDict [("success", VBool false);
                  ("error", VStr "Scan result not found")]) 404.

(** [GET /api/results/<scan_id>] *)
Definition get_scan_result (scan_id : string) : M response :=
  try_except
    (result <- on_table (fun t =>
                 (Ok (storage_get_scan_result (VStr scan_id) t), t)) ;;
     if negb (truthy result) then ret scan_not_found_response
     else ret (jsonify result 200))
    (fun _ => ret (fetch_failed_response "Failed to fetch result")).

Close Scope M_scope.

(** ** [server/flask_app.py]: the static routes *)

(** [try: m  except FileNotFoundError: h]; any other exception leaves the
    view. *)
Definition except_FileNotFoundError (m h : res response) : res response :=
  match m with
  | Raise FileNotFoundError => h
  | _ => m
  end.

Definition api_not_found_response : response :=
  jsonify (VDict [("error", VStr "API endpoint not found")]) 404.

Definition build_not_found_response : response :=
  jsonify
    (VDict [("error", VStr "React build not found");
            ("message",
             VStr "Please ensure the React build files are in the dist folder")])
    404.

(** [flask.send_from_directory(directory, path)]: the response that sends
    the file, or the 404 exception [NotFound] when the path does not lead
    to a file of the directory. *)
Definition send_from_directory (directory path : string) : res response :=
  if is_file directory path then Ok (mkResponse 200 (File path))
  else Raise NotFound.

(** The view of [/]. *)
Definition serve_react_app : res response :=
  except_FileNotFoundError
    (send_from_directory static_folder "index.html")
    (Ok build_not_found_response).

(** The view of [/<path:path>]. *)
Definition serve_static (path : string) : res response :=
  if startswith "api/" path then Ok api_not_found_response
  else
    except_FileNotFoundError
      (send_from_directory static_folder path)
      (except_FileNotFoundError
         (send_from_directory static_folder "index.html")
         (Ok build_not_found_response)).

(** The handler of 404 errors, on the path of the request. *)
Definition not_found (request_path : string) : res response :=
  if startswith "/api/" request_path then Ok api_not_found_response
  else
    except_FileNotFoundError
      (send_from_directory static_folder "index.html")
      (Ok build_not_found_response).

(** The view Flask chooses for the path of a request that no route of
    the API matches, the path given without its leading slash: [/] goes to
    [serve_react_app], any other path to [serve_static]. *)
Definition static_view (path : string) : res response :=
  match path with
  | EmptyString => serve_react_app
  | _ => serve_static path
  end.

(** What becomes of such a request: a [NotFound] that leaves the view goes
    to the handler registered for 404, any other exception leaves the
    application code. *)
Definition dispatch_static (path : string) : res response :=
  match static_view path with
  | Raise NotFound => not_found (String "/" path)
  | r => r
  end.

(** ** The server as a machine

    A request is handled at one instant.  The thread that [create_scan]
    starts at [t] sleeps for [completion_delay]; at any later instant, and
    in any order with the requests that arrive, it resumes and calls
    [complete_scan], in the thread, where no application context is
    active.  An exception that leaves [complete_scan] ends the thread. *)

Inductive request : Type :=
| PostScan (data : value)
| GetResults
| GetResult (scan_id : string).

(** What happens at an instant: a request arrives and is handled, or the
    thread in the place [k] among those that have been started and have
    not resumed, resumes. *)
Inductive event : Type :=
| Arrives (req : request)
| Resumes (k : nat).

Definition is_due (now : Time) (th : Thread) : bool := wake_at th <=? now.

(** [delayed_completion] after its sleep. *)
Definition run_thread (now : Time) (w : World) (th : Thread) : World :=
  snd (complete_scan false now (scan_result th) w).

(** The thread in the place [k] resumes if there is one and its sleep is
    over; nothing happens otherwise. *)
Definition resume (now : Time) (k : nat) (w : World) : World :=
  match nth_error (threads w) k with
  | Some th =>
      if is_due now th
      then run_thread now
             (mkWorld (rows w) (firstn k (threads w) ++ skipn (S k) (threads w))%list)
             th
      else w
  | None => w
  end.

Definition route (now : Time) (req : request) : M response :=
  match req with
  | PostScan data => create_scan now data
  | GetResults => get_all_results
  | GetResult scan_id => get_scan_result scan_id
  end.

(** What the client receives from a view run in the world [w]; an
    exception that leaves the view is answered by the 500 handler. *)
Definition answer (view : M response) (w : World) : response :=
  match fst (view w) with
  | Ok r => r
  | Raise _ => internal_error_response
  end.

Definition handle (now : Time) (req : request) (w : World) : response * World :=
  (answer (route now req) w, snd (route now req w)).

Definition step (now : Time) (e : event) (w : World) : World :=
  match e with
  | Arrives req => snd (handle now req w)
  | Resumes k => resume now k w
  end.

Fixpoint run (events : list (Time * event)) (w : World) : World :=
  match events with
  | [] => w
  | (now, e) :: events' => run events' (step now e w)
  end.

(** ** What the specification says of a request body *)

(** A 400 answer that carries a list of validation messages. *)
Definition itemized_rejection (r : response) (messages : list string) : Prop :=
  status_code r = 400 /\
  body_field r "details" = Some (VList (map VStr messages)).

(** [businessName] is missing or empty. *)
Definition name_missing (d : dict) : Prop :=
  lookup "businessName" d = None \/ lookup "businessName" d = Some (VStr "").

(** [website] is present, not blank, and does not parse to a scheme and a
    host. *)
Definition website_invalid (d : dict) : Prop :=
  exists s, lookup "website" d = Some (VStr s) /\
            str_strip s <> "" /\ validate_url (str_strip s) = false.

(** The field [k] of the body is a string when it is there. *)
Definition str_or_absent (k : string) (d : dict) : bool :=
  match lookup k d with
  | None | Some (VStr _) => true
  | Some _ => false
  end.

(** The messages [validate_scan_request] lists for an object whose
    [businessName] and [website] are strings when they are there. *)
Definition messages_for (d : dict) : list string :=
  (match lookup "businessName" d with
   | Some (VStr (String _ _)) => []
   | _ => ["Business name is required";
           "Business name must be at least 1 character long"]
   end ++
   match lookup "website" d with
   | Some (VStr s) =>
       if negb (String.eqb (str_strip s) "") && negb (validate_url (str_strip s))
       then ["Please enter a valid URL"] else []
   | _ => []
   end)%list.

(** The string under [k] in the body, [""] when there is none. *)
Definition str_field (d : dict) (k : string) : string :=
  match lookup k d with
  | Some (VStr s) => s
  | _ => ""
  end.

(** The row [create_scan] inserts for the body [d] in the table [t]. *)
Definition scanning_row (now : Time) (d : dict) (t : Table) : ScanResult :=
  mkScanResult (new_id (map id t))
    (VStr (str_strip (str_field d "businessName")))
    (py_or (VStr (str_strip (str_field d "website"))) VNone)
    (VStr (dumps (VDict (initial_document now (dget d "website" VNone)))))
    (VStr "scanning")
    now now.

(** The value of a column after an update: the one given for its key, or
    the one it had. *)
Definition updated (updates : dict) (k : string) (column : value) : value :=
  match lookup k updates with
  | Some v => v
  | None => column
  end.

(** [a] was created no earlier than [b]. *)
Definition newer_or_same (a b : ScanResult) : Prop :=
  created_at b <= created_at a.

(** [a] was created after [b]. *)
Definition newer (a b : ScanResult) : Prop :=
  created_at b < created_at a.

(** The row [complete_scan] leaves in place of [r] when the document it
    read from its snapshot is [doc]. *)
Definition completed_row (now : Time) (doc : dict) (r : ScanResult)
  : ScanResult :=
  mkScanResult (id r) (business_name r) (website r)
    (VStr (dumps (VDict (update doc (completion_fields now)))))
    (VStr "completed")
    (created_at r) now.

(** The identifier a thread will update. *)
Definition target (th : Thread) : res value :=
  subscript (scan_result th) "id".

(** Every thread that is waiting is bound to the identifier of a stored
    row. *)
Definition threads_known (w : World) : Prop :=
  forall th s, In th (threads w) -> target th = Ok (VStr s) ->
               In s (map id (rows w)).

(** The thread [create_scan] starts at [t0] for the row [r0] it inserted. *)
Definition completion_thread (t0 : Time) (r0 : ScanResult) : Thread :=
  mkThread (t0 + completion_delay) (to_dict r0).

(** The row [r0] is in the table as it was inserted. *)
Definition pending (r0 : ScanResult) (t : Table) : Prop :=
  filter_by_id (VStr (id r0)) t = Some r0.

(** ** Further vocabulary *)

(** The two messages on the name, which [validate_scan_request] gives
    together, and the one on the URL. *)
Definition name_messages : list string :=
  ["Business name is required";
   "Business name must be at least 1 character long"].

Definition url_messages : list string := ["Please enter a valid URL"].

(** The columns that neither the routes nor the completion step assign
    after the insert. *)
Definition fixed_columns (r : ScanResult) : string * value * value * Time :=
  (id r, business_name r, website r, created_at r).

(** A world no two rows of which share an identifier, and whose waiting
    threads are bound to stored rows. *)
Definition well_formed (w : World) : Prop :=
  NoDup (map id (rows w)) /\ threads_known w.

(** The requests of [events] that post a scan. *)
Definition posts (events : list (Time * event)) : nat :=
  List.length
    (filter (fun e => match snd e with
                      | Arrives (PostScan _) => true
                      | _ => false
                      end)
       events).

(** ** [server/storage_flask.py]: the users *)

(** Modelled from the spec: the [User] model of [server/models.py], with
    the identifier it is given on insert and the two columns [create_user]
    writes.  Its [to_dict] is a parameter. *)
Record User : Type := mkUser {
  user_id : string;
  username : value;
  password : value
}.

Variable user_to_dict : User -> value.

(** [User.query.filter_by(id=user_id).first()] *)
Definition user_by_id (uid : value) (t : list User) : option User :=
  match uid with
  | VStr s => find (fun u => String.eqb (user_id u) s) t
  | _ => None
  end.

(** [User.query.filter_by(username=username).first()] *)
Definition user_by_username (name : value) (t : list User) : option User :=
  match name with
  | VStr s =>
      find (fun u => match username u with
                     | VStr s' => String.eqb s' s
                     | _ => false
                     end) t
  | _ => None
  end.

Definition storage_get_user (uid : value) (t : list User) : value :=
  match user_by_id uid t with
  | Some user => user_to_dict user
  | None => VNone
  end.

Definition storage_get_user_by_username (name : value) (t : list User)
  : value :=
  match user_by_username name t with
  | Some user => user_to_dict user
  | None => VNone
  end.

Definition storage_create_user (user_data : dict) (t : list User)
  : res value * list User :=
  match getitem user_data "username" with
  | Raise e => (Raise e, t)
  | Ok name =>
      match getitem user_data "password" with
      | Raise e => (Raise e, t)
      | Ok secret =>
          let user := mkUser (new_id (map user_id t)) name secret in
          (Ok (user_to_dict user), (t ++ [user])%list)
      end
  end.

(** ** [run_flask.py]: the settings read from the environment *)

(** [os.environ]: the variables that are set, each with its value. *)
Definition environ := list (string * string).

Fixpoint getenv (env : environ) (k : string) : option string :=
  match env with
  | [] => None
  | (k', v) :: env' => if String.eqb k k' then Some v else getenv env' k
  end.

(** [os.environ.get(k, default)] *)
Definition environ_get (env : environ) (k : string) (default : value) : value :=
  match getenv env k with
  | Some v => VStr v
  | None => default
  end.

(** [str.lower] on the code points below 256: the letters A to Z, and the
    capital letters from 0xc0 to 0xde but for the sign 0xd7, move up by
    32. *)
Definition lower_char (c : ascii) : ascii :=
  let n := nat_of_ascii c in
  if (((65 <=? n) && (n <=? 90))
      || ((192 <=? n) && (n <=? 222) && negb (n =? 215)))%nat
  then ascii_of_nat (n + 32) else c.

Fixpoint str_lower (s : string) : string :=
  match s with
  | EmptyString => EmptyString
  | String c s' => String (lower_char c) (str_lower s')
  end.

(** [int] on a string is a parameter: it gives the number, or raises
    [ValueError]. *)
Variable int_of_str : string -> res Z.

(** [int(v)] *)
Definition py_int (v : value) : res Z :=
  match v with
  | VInt z => Ok z
  | VBool b => Ok (if b then 1 else 0)
  | VStr s => int_of_str s
  | _ => Raise TypeError
  end.

Record Settings : Type := mkSettings {
  port : Z;
  host : value;
  debug : bool
}.

(** The configuration part of [main]. *)
Definition settings (env : environ) : res Settings :=
  port <- py_int (environ_get env "PORT" (VInt 5000)) ;;
  let host := environ_get env "HOST" (VStr "0.0.0.0") in
  let debug :=
    match environ_get env "DEBUG" (VStr "False") with
    | VStr flag => String.eqb (str_lower flag) "true"
    | _ => false
    end in
  Ok (mkSettings port host debug).

(** From the row [a] to the row [b], a completed scan has stayed
    completed. *)
Definition no_step_back (a b : ScanResult) : Prop :=
  status a = VStr "completed" -> status b = VStr "completed".

(** The two states a scan made by this server is in. *)
Definition scanning_or_completed (r : ScanResult) : Prop :=
  status r = VStr "scanning" \/ status r = VStr "completed".

(** ** Properties *)

Open Scope list_scope.

(** *** Python primitives *)

Lemma lstrip_all_space (s : string) : all_space s = true -> lstrip s = "".
Proof.
  induction s as [|c s IH]; simpl; [reflexivity|].
  intros H. apply andb_prop in H. destruct H as [Hc Hs].
  rewrite Hc. auto.
Qed.

Lemma str_strip_all_space (s : string) : all_space s = true -> str_strip s = "".
Proof.
  intros H. unfold str_strip. rewrite (lstrip_all_space s H). reflexivity.
Qed.

Lemma lstrip_decompose (s : string) :
  exists a, all_space a = true /\ s = (a ++ lstrip s)%string.
Proof.
  induction s as [|c s (a & Ha & E)]; simpl.
  - exists "". split; reflexivity.
  - destruct (is_space c) eqn:Hc.
    + exists (String c a). simpl. rewrite Hc, Ha, <- E. split; reflexivity.
    + exists "". split; reflexivity.
Qed.

Lemma lstrip_first (s : string) : first_is_space (lstrip s) = false.
Proof.
  induction s as [|c s IH]; simpl; [reflexivity|].
  destruct (is_space c) eqn:Hc; [exact IH | simpl; exact Hc].
Qed.

Lemma rstrip_decompose (s : string) :
  exists b, all_space b = true /\ s = (rstrip s ++ b)%string.
Proof.
  induction s as [|c s (b & Hb & E)]; simpl.
  - exists "". split; reflexivity.
  - destruct (rstrip s) as [|x r] eqn:Hr.
    + simpl in E. subst b. destruct (is_space c) eqn:Hc.
      * exists (String c s). simpl. rewrite Hc, Hb. split; reflexivity.
      * exists s. split; [exact Hb | reflexivity].
    + exists b. split; [exact Hb|]. simpl. rewrite E at 1. reflexivity.
Qed.

Lemma rstrip_last (s : string) : last_is_space (rstrip s) = false.
Proof.
  induction s as [|c s IH]; simpl; [reflexivity|].
  destruct (rstrip s) as [|x r].
  - destruct (is_space c) eqn:Hc; [reflexivity | simpl; exact Hc].
  - exact IH.
Qed.

Lemma rstrip_first (s : string) :
  first_is_space s = false -> first_is_space (rstrip s) = false.
Proof.
  destruct s as [|c s]; simpl; [reflexivity|]. intros Hc.
  destruct (rstrip s); [rewrite Hc|]; simpl; exact Hc.
Qed.

(** [str.strip] removes a run of white space at each end, and all of it:
    what is left neither begins nor ends with white space. *)
Lemma str_strip_spec (s : string) :
  exists a b,
    all_space a = true /\ all_space b = true /\
    s = (a ++ str_strip s ++ b)%string /\
    first_is_space (str_strip s) = false /\
    last_is_space (str_strip s) = false.
Proof.
  destruct (lstrip_decompose s) as (a & Ha & Ea).
  destruct (rstrip_decompose (lstrip s)) as (b & Hb & Eb).
  exists a, b. unfold str_strip.
  split; [exact Ha|]. split; [exact Hb|]. split; [|split].
  - rewrite <- Eb. exact Ea.
  - apply rstrip_first, lstrip_first.
  - apply rstrip_last.
Qed.

Lemma truthy_str (s : string) : truthy (VStr s) = true <-> s <> "".
Proof.
  simpl. destruct (String.eqb_spec s ""); simpl; split; intros; congruence.
Qed.

Lemma truthy_str_false (s : string) : truthy (VStr s) = false <-> s = "".
Proof.
  simpl. destruct (String.eqb_spec s ""); simpl; split; intros; congruence.
Qed.

Lemma len_str_lt_1 (s : string) : (Z.of_nat (String.length s) <? 1) = String.eqb s "".
Proof.
  destruct s; reflexivity || (simpl String.length; destruct (Z.ltb_spec (Z.of_nat (S (String.length s))) 1); [lia|reflexivity]).
Qed.

(** *** [POST /api/scan]: the empty body *)

(** C9: a body that is no JSON at all ([None]) or the empty object is
    answered 400 with the one message "No data provided" and without a
    [details] list, and the world is left as it was.  The branch runs before
    the fields are validated: validation of the empty object would have
    listed messages, and validation of [None] would have raised. *)
Theorem no_data_rejected_before_validation (now : Time) (w : World) :
  create_scan now VNone w = (Ok no_data_response, w) /\
  create_scan now (VDict []) w = (Ok no_data_response, w) /\
  status_code no_data_response = 400 /\
  body_field no_data_response "error" = Some (VStr "No data provided") /\
  body_field no_data_response "details" = None /\
  validate_scan_request (VDict []) =
    Ok ["Business name is required";
        "Business name must be at least 1 character long"] /\
  validate_scan_request VNone = Raise AttributeError.
Proof.
  repeat split; reflexivity.
Qed.

(** *** [POST /api/scan]: validation *)

Lemma validate_scan_request_messages (d : dict) :
  str_or_absent "businessName" d = true ->
  str_or_absent "website" d = true ->
  validate_scan_request (VDict d) = Ok (messages_for d).
Proof.
  unfold str_or_absent, validate_scan_request, messages_for, get, dget.
  intros Hn Hw.
  destruct (lookup "businessName" d) as [[| | |n| |]|]; try discriminate;
    destruct (lookup "website" d) as [[| | |s| |]|]; try discriminate;
    cbn [bind len strip truthy]; rewrite ?len_str_lt_1;
    try destruct n; cbn [String.eqb negb app andb];
    try destruct (negb (String.eqb (str_strip s) "") && negb (validate_url (str_strip s)));
    reflexivity.
Qed.

Lemma messages_for_cases (d : dict) :
  str_or_absent "businessName" d = true ->
  str_or_absent "website" d = true ->
  (messages_for d = [] /\ ~ (name_missing d \/ website_invalid d)) \/
  (messages_for d <> [] /\ (name_missing d \/ website_invalid d)).
Proof.
  unfold str_or_absent, messages_for, name_missing, website_invalid.
  intros Hn Hw.
  destruct (lookup "businessName" d) as [[| | |n| |]|]; try discriminate.
  2: { right. split; [discriminate | left; left; reflexivity]. }
  destruct n as [|c n].
  { right. split; [discriminate | left; right; reflexivity]. }
  cbn [app].
  destruct (lookup "website" d) as [[| | |s| |]|]; try discriminate.
  2: { left. split; [reflexivity|].
       intros [[H|H]|(s' & H & _)]; discriminate. }
  destruct (String.eqb_spec (str_strip s) "") as [He|He]; cbn [negb andb].
  - left. split; [reflexivity|].
    intros [[H|H]|(s' & H & Hs & _)]; try discriminate.
    injection H as <-. contradiction.
  - destruct (validate_url (str_strip s)) eqn:Hv; cbn [negb].
    + left. split; [reflexivity|].
      intros [[H|H]|(s' & H & _ & Hs)]; try discriminate.
      injection H as <-. congruence.
    + right. split; [discriminate|].
      right. exists s. auto.
Qed.

Lemma name_missing_message (d : dict) :
  lookup "businessName" d = None ->
  In "Business name is required" (messages_for d).
Proof.
  unfold messages_for. intros ->. left. reflexivity.
Qed.

Lemma truthy_dict (d : dict) : d <> [] -> truthy (VDict d) = true.
Proof. destruct d; [congruence | reflexivity]. Qed.

Lemma truthy_messages (l : list string) :
  truthy (VList (map VStr l)) = match l with [] => false | _ => true end.
Proof. destruct l; reflexivity. Qed.

Lemma create_scan_rejects (now : Time) (d : dict) (w : World) :
  d <> [] ->
  str_or_absent "businessName" d = true ->
  str_or_absent "website" d = true ->
  messages_for d <> [] ->
  create_scan now (VDict d) w =
    (Ok (validation_failed_response (messages_for d)), w).
Proof.
  intros Hd Hn Hw Hm.
  unfold create_scan, try_except, mbind, lift.
  rewrite (truthy_dict d Hd). cbn [negb].
  rewrite (validate_scan_request_messages d Hn Hw), truthy_messages.
  destruct (messages_for d); [congruence | reflexivity].
Qed.

Lemma create_scan_accepts (now : Time) (d : dict) (w : World) :
  d <> [] ->
  str_or_absent "businessName" d = true ->
  str_or_absent "website" d = true ->
  messages_for d = [] ->
  let r := scanning_row now d (rows w) in
  create_scan now (VDict d) w =
    (Ok (scan_initiated_response (VStr (id r))),
     mkWorld (rows w ++ [r])
       (threads w ++ [mkThread (now + completion_delay) (to_dict r)])).
Proof.
  intros Hd Hn Hw Hm r. subst r.
  unfold create_scan, try_except, mbind, lift.
  rewrite (truthy_dict d Hd). cbn [negb].
  rewrite (validate_scan_request_messages d Hn Hw), truthy_messages, Hm.
  unfold scanning_row, str_field, messages_for, str_or_absent in *.
  unfold subscript, getitem, get, dget.
  destruct (lookup "businessName" d) as [[| | |n| |]|]; try discriminate.
  destruct (lookup "website" d) as [[| | |s| |]|]; try discriminate; reflexivity.
Qed.

(** C1 (amended): for a body that is a non-empty JSON object whose
    [businessName] and [website] are strings when present, the answer is a
    400 response with a non-empty list of validation messages if and only if
    [businessName] is missing or empty, or [website], once trimmed, is not
    empty and does not parse to a non-empty scheme and a non-empty host.
    The list is the one [validate_scan_request] computed, and for a body
    without [businessName] it contains "Business name is required". *)
Theorem validation_rejects_exactly (now : Time) (d : dict) (w : World) :
  d <> [] ->
  str_or_absent "businessName" d = true ->
  str_or_absent "website" d = true ->
  let r := answer (create_scan now (VDict d)) w in
  ((exists messages, messages <> [] /\ itemized_rejection r messages) <->
   (name_missing d \/ website_invalid d)) /\
  (name_missing d \/ website_invalid d ->
   r = validation_failed_response (messages_for d) /\
   validate_scan_request (VDict d) = Ok (messages_for d) /\
   snd (create_scan now (VDict d) w) = w) /\
  (lookup "businessName" d = None ->
   itemized_rejection r (messages_for d) /\
   In "Business name is required" (messages_for d)).
Proof.
  intros Hd Hn Hw r.
  assert (Hrej : messages_for d <> [] ->
                 r = validation_failed_response (messages_for d) /\
                 snd (create_scan now (VDict d) w) = w).
  { intros Hm. subst r. unfold answer.
    rewrite (create_scan_rejects now d w Hd Hn Hw Hm). split; reflexivity. }
  destruct (messages_for_cases d Hn Hw) as [[Hm Hc]|[Hm Hc]].
  - assert (Hr : status_code r = 200).
    { subst r. unfold answer.
      rewrite (create_scan_accepts now d w Hd Hn Hw Hm). reflexivity. }
    split; [split|split].
    + intros (m & _ & Hs & _). rewrite Hr in Hs. discriminate.
    + intros H. contradiction.
    + intros H. contradiction.
    + intros H. exfalso. apply Hc. left. left. exact H.
  - destruct (Hrej Hm) as [Er Ew].
    split; [split|split].
    + intros _. exact Hc.
    + intros _. exists (messages_for d). split; [exact Hm|].
      rewrite Er. split; reflexivity.
    + intros _. repeat split; try assumption.
      apply validate_scan_request_messages; assumption.
    + intros H. split; [| apply name_missing_message; exact H].
      rewrite Er. split; reflexivity.
Qed.

(** *** The data store *)

Lemma filter_by_id_unknown (s : string) (t : Table) :
  ~ In s (map id t) -> filter_by_id (VStr s) t = None.
Proof.
  unfold filter_by_id. induction t as [|r t IH]; simpl; [reflexivity|].
  intros H. destruct (String.eqb_spec (id r) s) as [E|E].
  - exfalso. apply H. left. exact E.
  - apply IH. intros Hin. apply H. right. exact Hin.
Qed.

Lemma filter_by_id_found (v : value) (t : Table) (r : ScanResult) :
  filter_by_id v t = Some r -> v = VStr (id r) /\ In r t.
Proof.
  unfold filter_by_id. destruct v; try discriminate.
  intros H. destruct (find_some _ _ H) as [Hin He].
  apply String.eqb_eq in He. subst s. split; [reflexivity | exact Hin].
Qed.

(** C7: for an identifier that no stored row has, [GET /api/results/<id>]
    answers 404 "Scan result not found" (so not 500) and changes nothing. *)
Theorem unknown_scan_is_404 (scan_id : string) (w : World) :
  ~ In scan_id (map id (rows w)) ->
  get_scan_result scan_id w = (Ok scan_not_found_response, w) /\
  status_code (answer (get_scan_result scan_id) w) = 404 /\
  status_code (answer (get_scan_result scan_id) w) <> 500.
Proof.
  intros H.
  assert (E : get_scan_result scan_id w = (Ok scan_not_found_response, w)).
  { unfold get_scan_result, try_except, mbind, on_table, storage_get_scan_result.
    rewrite (filter_by_id_unknown scan_id (rows w) H).
    destruct w; reflexivity. }
  unfold answer. rewrite E. repeat split. discriminate.
Qed.


Lemma insert_desc_perm (r : ScanResult) (l : list ScanResult) :
  Permutation (insert_desc r l) (r :: l).
Proof.
  induction l as [|x l IH]; simpl; [apply Permutation_refl|].
  destruct (created_at x <? created_at r); [apply Permutation_refl|].
  destruct ((created_at x =? created_at r) && tie_break r x);
    [apply Permutation_refl|].
  eapply perm_trans; [apply perm_skip, IH | apply perm_swap].
Qed.

Lemma insert_desc_Forall (P : ScanResult -> Prop) (r : ScanResult)
    (l : list ScanResult) :
  P r -> Forall P l -> Forall P (insert_desc r l).
Proof.
  intros Hr Hl. induction Hl as [|x l Hx Hl IH]; simpl.
  - constructor; [exact Hr | constructor].
  - destruct (created_at x <? created_at r);
      [repeat constructor; assumption|].
    destruct ((created_at x =? created_at r) && tie_break r x);
      repeat constructor; assumption.
Qed.

Lemma insert_desc_sorted (r : ScanResult) (l : list ScanResult) :
  StronglySorted newer_or_same l ->
  StronglySorted newer_or_same (insert_desc r l).
Proof.
  intros Hl. induction Hl as [|x l Hl IH Hx]; simpl.
  - constructor; constructor.
  - assert (Hfront : created_at x <= created_at r ->
              StronglySorted newer_or_same (r :: x :: l)).
    { intros Hle. constructor; [constructor; assumption|].
      constructor; [exact Hle|].
      eapply Forall_impl; [|exact Hx].
      unfold newer_or_same. intros a Ha. lia. }
    destruct (Z.ltb_spec (created_at x) (created_at r)) as [Hlt|Hge];
      [apply Hfront; lia|].
    destruct (Z.eqb_spec (created_at x) (created_at r)) as [He|Hne];
      cbn [andb].
    + destruct (tie_break r x); [apply Hfront; lia|].
      constructor; [exact IH|].
      apply insert_desc_Forall; [unfold newer_or_same; lia | exact Hx].
    + constructor; [exact IH|].
      apply insert_desc_Forall; [unfold newer_or_same; lia | exact Hx].
Qed.

Lemma order_by_created_at_desc_perm (t : Table) :
  Permutation (order_by_created_at_desc t) t.
Proof.
  induction t as [|r t IH]; simpl; [constructor|].
  eapply perm_trans; [apply insert_desc_perm | apply perm_skip, IH].
Qed.

Lemma order_by_created_at_desc_sorted (t : Table) :
  StronglySorted newer_or_same (order_by_created_at_desc t).
Proof.
  induction t as [|r t IH]; simpl; [constructor | apply insert_desc_sorted, IH].
Qed.

Lemma sorted_distinct_strict (l : list ScanResult) :
  StronglySorted newer_or_same l ->
  NoDup (map created_at l) ->
  StronglySorted newer l.
Proof.
  intros Hs. induction Hs as [|a l Hs IH Ha]; intros Hd; [constructor|].
  simpl in Hd. inversion Hd as [|x xs Hnotin Hd']; subst.
  constructor; [exact (IH Hd')|].
  rewrite Forall_forall in Ha |- *. intros b Hb.
  pose proof (Ha b Hb) as Hle. unfold newer_or_same in Hle. unfold newer.
  assert (created_at b <> created_at a).
  { intros E. apply Hnotin. rewrite <- E. apply in_map. exact Hb. }
  lia.
Qed.

(** C5 (amended): in every state of the store, and whatever order the
    database gives to rows of one creation time, [getAllScanResults]
    returns the detached copies of all the stored rows, each once, every
    one created no earlier than those after it, and strictly after them
    when no two rows share a creation time; it returns the empty sequence
    for the empty table; [GET /api/results] answers 200 with that sequence
    and changes nothing. *)
Theorem results_newest_first (w : World) :
  let l := order_by_created_at_desc (rows w) in
  Permutation l (rows w) /\
  StronglySorted newer_or_same l /\
  (NoDup (map created_at (rows w)) -> StronglySorted newer l) /\
  storage_get_all_scan_results (rows w) = map to_dict l /\
  get_all_results w = (Ok (jsonify (VList (map to_dict l)) 200), w) /\
  storage_get_all_scan_results [] = [].
Proof.
  cbv zeta.
  split; [apply order_by_created_at_desc_perm|].
  split; [apply order_by_created_at_desc_sorted|].
  split; [|split; [reflexivity|split; [destruct w; reflexivity|reflexivity]]].
  intros Hd. apply sorted_distinct_strict.
  - apply order_by_created_at_desc_sorted.
  - eapply Permutation_NoDup; [|exact Hd].
    apply Permutation_map, Permutation_sym, order_by_created_at_desc_perm.
Qed.

(** *** [updateScanResult] *)

Lemma assign_updated (updates : dict) (k : string) (column : value) :
  assign updates k column = updated updates k column.
Proof.
  unfold assign, updated, contains, dget.
  destruct (lookup k updates); reflexivity.
Qed.

Lemma find_split (s : string) (t : Table) (r : ScanResult) :
  find (fun x => String.eqb (id x) s) t = Some r ->
  exists t1 t2, t = t1 ++ r :: t2 /\ ~ In s (map id t1) /\ id r = s.
Proof.
  induction t as [|x t IH]; simpl; [discriminate|].
  destruct (String.eqb_spec (id x) s) as [E|E].
  - intros H. injection H as <-. exists [], t. auto.
  - intros H. destruct (IH H) as (t1 & t2 & -> & Hn & Hr).
    exists (x :: t1), t2. repeat split; auto.
    simpl. intros [H1|H1]; auto.
Qed.

Lemma commit_split (r r' : ScanResult) (t1 t2 : Table) :
  id r' = id r -> ~ In (id r) (map id t1) ->
  commit r' (t1 ++ r :: t2) = t1 ++ r' :: t2.
Proof.
  intros E. induction t1 as [|x t1 IH]; simpl; intros Hn.
  - rewrite E, String.eqb_refl. reflexivity.
  - rewrite E. destruct (String.eqb_spec (id x) (id r)) as [Ex|Ex].
    + exfalso. apply Hn. left. exact Ex.
    + f_equal. apply IH. intros H. apply Hn. right. exact H.
Qed.

Lemma find_middle (s : string) (r : ScanResult) (t1 t2 : Table) :
  ~ In s (map id t1) ->
  find (fun x => String.eqb (id x) s) (t1 ++ r :: t2) =
  if String.eqb (id r) s then Some r
  else find (fun x => String.eqb (id x) s) t2.
Proof.
  induction t1 as [|x t1 IH]; simpl; intros Hn; [reflexivity|].
  destruct (String.eqb_spec (id x) s) as [Ex|Ex].
  - exfalso. apply Hn. left. exact Ex.
  - apply IH. intros H. apply Hn. right. exact H.
Qed.

(** An identifier of the table is found, at the first row that has it. *)
Lemma filter_by_id_in (s : string) (t : Table) :
  In s (map id t) ->
  exists r, filter_by_id (VStr s) t = Some r /\ id r = s /\ In r t.
Proof.
  unfold filter_by_id. induction t as [|x t IH]; simpl; [intros []|].
  intros H. destruct (String.eqb_spec (id x) s) as [E|E].
  - exists x. auto.
  - destruct H as [H|H]; [contradiction|].
    destruct (IH H) as (r & Hr & Hid & Hin). exists r. auto.
Qed.

(** C4: [updateScanResult] on an identifier that no stored row has, or on
    an identifier that is not a string, returns [None] and leaves the table
    as it is.  On the identifier of a stored row it changes one row, the
    first with that identifier, in place: each of the four columns takes
    the value the update gives for its key and keeps its value when the key
    is not there, [updated_at] becomes the time of the call, the identifier
    and [created_at] stay, every other row stays, a lookup of the
    identifier finds the row as updated, and the call returns the detached
    copy of that row. *)
Theorem update_changes_only_given_fields (now : Time) (scan_id : string)
    (updates : dict) (t : Table) :
  (~ In scan_id (map id t) ->
   storage_update_scan_result now (VStr scan_id) updates t = (VNone, t)) /\
  (forall v, (forall s, v <> VStr s) ->
   storage_update_scan_result now v updates t = (VNone, t)) /\
  (In scan_id (map id t) ->
   exists r r' t1 t2,
     t = t1 ++ r :: t2 /\
     ~ In scan_id (map id t1) /\
     id r = scan_id /\
     storage_update_scan_result now (VStr scan_id) updates t =
       (to_dict r', t1 ++ r' :: t2) /\
     storage_get_scan_result (VStr scan_id) (t1 ++ r' :: t2) = to_dict r' /\
     id r' = id r /\
     created_at r' = created_at r /\
     updated_at r' = now /\
     business_name r' = updated updates "businessName" (business_name r) /\
     website r' = updated updates "website" (website r) /\
     scan_data r' = updated updates "scanData" (scan_data r) /\
     status r' = updated updates "status" (status r)).
Proof.
  unfold storage_update_scan_result. split; [|split].
  - intros H. rewrite (filter_by_id_unknown scan_id t H). reflexivity.
  - intros v Hv. destruct v; try reflexivity. exfalso. apply (Hv s). reflexivity.
  - intros Hin. destruct (filter_by_id_in scan_id t Hin) as (r & Hr & Hid & _).
    rewrite Hr. unfold filter_by_id in Hr.
    destruct (find_split _ _ _ Hr) as (t1 & t2 & -> & Hn & _).
    exists r. eexists. exists t1, t2.
    split; [reflexivity|]. split; [exact Hn|]. split; [exact Hid|].
    split; [|split].
    + f_equal. apply commit_split; [reflexivity | rewrite Hid; exact Hn].
    + unfold storage_get_scan_result, filter_by_id.
      rewrite find_middle by exact Hn. cbn [id].
      rewrite Hid, String.eqb_refl. reflexivity.
    + cbn. rewrite !assign_updated. repeat split.
Qed.
(** *** [POST /api/scan]: the accepted request *)

Lemma valid_request_shape (d : dict) (name : string) :
  lookup "businessName" d = Some (VStr name) ->
  str_or_absent "website" d = true ->
  validate_scan_request (VDict d) = Ok [] ->
  d <> [] /\ str_or_absent "businessName" d = true /\ messages_for d = [].
Proof.
  intros Hn Hw Hv.
  assert (Ht : str_or_absent "businessName" d = true).
  { unfold str_or_absent. rewrite Hn. reflexivity. }
  repeat split.
  - intros ->. discriminate.
  - exact Ht.
  - rewrite (validate_scan_request_messages d Ht Hw) in Hv. congruence.
Qed.

Lemma find_last (s : string) (t : Table) (r : ScanResult) :
  ~ In s (map id t) -> id r = s ->
  find (fun x => String.eqb (id x) s) (t ++ [r]) = Some r.
Proof.
  intros Hn E. rewrite find_middle by exact Hn.
  rewrite E, String.eqb_refl. reflexivity.
Qed.

(** C2: a request that passes validation (its [businessName] a string, its
    [website] a string when present) inserts exactly one row, after the
    stored ones, with status "scanning" and a [scanData] that serialises the
    document of a creation timestamp, the canned note (one text when the
    [website] of the request is a non-empty string, another otherwise), the
    score 85 and the in-progress flag.  The answer is 200 with the
    identifier of that row and a success acknowledgment, while the
    completion is only a started thread; when the identifier is new to the
    table, fetching it in the world just left returns the row, scanning. *)
Theorem create_scan_persists_scanning_row (now : Time) (d : dict)
    (name : string) (w : World) :
  lookup "businessName" d = Some (VStr name) ->
  str_or_absent "website" d = true ->
  validate_scan_request (VDict d) = Ok [] ->
  let r := scanning_row now d (rows w) in
  let w' := mkWorld (rows w ++ [r])
              (threads w ++ [mkThread (now + completion_delay) (to_dict r)]) in
  create_scan now (VDict d) w =
    (Ok (jsonify (VDict [("success", VBool true);
                         ("scanId", VStr (id r));
                         ("message", VStr "Scan initiated successfully")])
           200), w') /\
  business_name r = VStr (str_strip name) /\
  status r = VStr "scanning" /\
  scan_data r =
    VStr (dumps (VDict
      [("timestamp", VStr (isoformat now));
       ("websiteAnalysis",
        VStr (if String.eqb (str_field d "website") ""
              then "No website provided" else "Website found and analyzed"));
       ("businessScore", VInt 85);
       ("scanning", VBool true)])) /\
  created_at r = now /\
  (~ In (id r) (map id (rows w)) ->
   get_scan_result (id r) w' = (Ok (jsonify (to_dict r) 200), w')).
Proof.
  intros Hn Hw Hv r w'.
  destruct (valid_request_shape d name Hn Hw Hv) as (Hd & Ht & Hm).
  split; [|split; [|split; [|split; [|split]]]].
  - apply (create_scan_accepts now d w Hd Ht Hw Hm).
  - subst r. unfold scanning_row, str_field. rewrite Hn. reflexivity.
  - reflexivity.
  - subst r. unfold scanning_row, str_field, initial_document, dget.
    cbn [scan_data]. unfold str_or_absent in Hw.
    destruct (lookup "website" d) as [[| | |s| |]|]; try discriminate;
      [|reflexivity].
    cbn [truthy]. destruct (String.eqb s ""); reflexivity.
  - reflexivity.
  - intros Hfresh.
    unfold get_scan_result, try_except, mbind, on_table, storage_get_scan_result.
    unfold filter_by_id. cbn [rows w' threads].
    rewrite (find_last (id r) (rows w) r Hfresh eq_refl).
    reflexivity.
Qed.


(** C10: [create_scan] normalises white space.  For every request that
    passes validation, the row it inserts has the [businessName] of the
    request without its surrounding white space: the name is that value
    between two runs of white space, and it neither begins nor ends with
    white space.  And when [website] is a non-empty string of white space
    only, beside a non-empty name, the request passes validation, the row
    has no [website] ([None]), and the note of its [scanData] is still the
    one for a supplied website. *)
Theorem whitespace_is_normalised (now : Time) (d : dict) (name : string)
    (w : World) :
  lookup "businessName" d = Some (VStr name) ->
  str_or_absent "website" d = true ->
  let r := scanning_row now d (rows w) in
  (validate_scan_request (VDict d) = Ok [] ->
   rows (snd (create_scan now (VDict d) w)) = rows w ++ [r] /\
   business_name r = VStr (str_strip name) /\
   exists a b,
     all_space a = true /\ all_space b = true /\
     name = (a ++ str_strip name ++ b)%string /\
     first_is_space (str_strip name) = false /\
     last_is_space (str_strip name) = false) /\
  (forall site,
     name <> "" ->
     lookup "website" d = Some (VStr site) -> site <> "" ->
     all_space site = true ->
     validate_scan_request (VDict d) = Ok [] /\
     rows (snd (create_scan now (VDict d) w)) = rows w ++ [r] /\
     website r = VNone /\
     scan_data r =
       VStr (dumps (VDict
         [("timestamp", VStr (isoformat now));
          ("websiteAnalysis", VStr "Website found and analyzed");
          ("businessScore", VInt 85);
          ("scanning", VBool true)]))).
Proof.
  intros Hn Hw r.
  assert (Ht : str_or_absent "businessName" d = true).
  { unfold str_or_absent. rewrite Hn. reflexivity. }
  assert (Hd : d <> []) by (intros ->; discriminate).
  split.
  - intros Hv.
    destruct (valid_request_shape d name Hn Hw Hv) as (_ & _ & Hm).
    split; [|split].
    + rewrite (create_scan_accepts now d w Hd Ht Hw Hm). reflexivity.
    + subst r. unfold scanning_row, str_field. rewrite Hn. reflexivity.
    + apply str_strip_spec.
  - intros site Hne Hs Hse Hsp.
    assert (Hm : messages_for d = []).
    { unfold messages_for. rewrite Hn, Hs, (str_strip_all_space site Hsp).
      destruct name; [congruence | reflexivity]. }
    split; [|split; [|split]].
    + rewrite (validate_scan_request_messages d Ht Hw), Hm. reflexivity.
    + rewrite (create_scan_accepts now d w Hd Ht Hw Hm). reflexivity.
    + subst r. unfold scanning_row, str_field. rewrite Hs.
      rewrite (str_strip_all_space site Hsp). reflexivity.
    + subst r. unfold scanning_row, initial_document, dget. rewrite Hs.
      cbn [scan_data truthy].
      destruct (String.eqb_spec site ""); [contradiction | reflexivity].
Qed.
(** *** The completion step *)

Lemma find_app (p : ScanResult -> bool) (l1 l2 : Table) :
  find p (l1 ++ l2) =
  match find p l1 with Some x => Some x | None => find p l2 end.
Proof.
  induction l1 as [|x l1 IH]; simpl; [reflexivity|].
  destruct (p x); [reflexivity | exact IH].
Qed.

Lemma update_keeps_others (now : Time) (scan_id : value) (updates : dict)
    (t : Table) (other : string) :
  scan_id <> VStr other ->
  filter_by_id (VStr other)
    (snd (storage_update_scan_result now scan_id updates t)) =
  filter_by_id (VStr other) t.
Proof.
  intros Hne. unfold storage_update_scan_result.
  destruct (filter_by_id scan_id t) as [r|] eqn:Hr; [|reflexivity].
  destruct (filter_by_id_found _ _ _ Hr) as [-> _].
  unfold filter_by_id in Hr |- *.
  destruct (find_split _ _ _ Hr) as (t1 & t2 & -> & Hn & _).
  cbn [snd]. rewrite commit_split by (reflexivity || exact Hn).
  rewrite !find_app. cbn [find id].
  destruct (String.eqb_spec (id r) other) as [E|E]; [|reflexivity].
  congruence.
Qed.

Lemma complete_scan_outside (now : Time) (sr : value) (w : World) :
  snd (complete_scan false now sr w) = w.
Proof.
  unfold complete_scan, storage_call, mbind, lift, ret.
  destruct (subscript sr "scanData"); [|reflexivity].
  destruct (json_loads _); [|reflexivity].
  destruct (py_update _ _); [|reflexivity].
  destruct (subscript sr "id"); reflexivity.
Qed.

Lemma complete_scan_threads (ctx : bool) (now : Time) (sr : value) (w : World) :
  threads (snd (complete_scan ctx now sr w)) = threads w.
Proof.
  destruct ctx; [|rewrite complete_scan_outside; reflexivity].
  unfold complete_scan, storage_call, mbind, lift, on_table, ret.
  destruct (subscript sr "scanData"); [|reflexivity].
  destruct (json_loads _); [|reflexivity].
  destruct (py_update _ _); [|reflexivity].
  destruct (subscript sr "id"); [|reflexivity].
  destruct (storage_update_scan_result _ _ _ _). reflexivity.
Qed.

Lemma complete_scan_keeps_others (ctx : bool) (now : Time) (sr : value)
    (w : World) (other : string) :
  subscript sr "id" <> Ok (VStr other) ->
  filter_by_id (VStr other) (rows (snd (complete_scan ctx now sr w))) =
  filter_by_id (VStr other) (rows w).
Proof.
  intros Hne.
  destruct ctx; [|rewrite complete_scan_outside; reflexivity].
  unfold complete_scan, storage_call, mbind, lift, on_table, ret.
  destruct (subscript sr "scanData"); [|reflexivity].
  destruct (json_loads _); [|reflexivity].
  destruct (py_update _ _); [|reflexivity].
  destruct (subscript sr "id") as [i|]; [|reflexivity].
  assert (Hi : i <> VStr other) by congruence.
  match goal with
  | |- context [storage_update_scan_result ?n ?i ?u ?t] =>
      pose proof (update_keeps_others n i u t other Hi) as H;
      destruct (storage_update_scan_result n i u t)
  end.
  exact H.
Qed.

Lemma complete_scan_found (now : Time) (r0 r : ScanResult) (doc : dict)
    (t1 t2 : Table) (w : World) :
  json_loads (py_or (scan_data r0) (VStr "{}")) = Ok (VDict doc) ->
  rows w = t1 ++ r :: t2 ->
  ~ In (id r0) (map id t1) ->
  id r = id r0 ->
  complete_scan true now (to_dict r0) w =
    (Ok tt, mkWorld (t1 ++ completed_row now doc r :: t2) (threads w)).
Proof.
  intros Hdoc Hrows Hn Hid.
  unfold complete_scan, storage_call, mbind, lift, on_table, ret.
  cbn [to_dict subscript getitem lookup String.eqb Ascii.eqb Bool.eqb].
  rewrite Hdoc. cbn [py_update].
  unfold storage_update_scan_result, filter_by_id.
  rewrite Hrows, find_middle by exact Hn.
  rewrite Hid, String.eqb_refl.
  rewrite commit_split by (cbn [id]; congruence).
  reflexivity.
Qed.

(** What the closure would do were an application context active where it
    runs: whatever the row with the identifier of its dict holds by then,
    it replaces the [scanData] of the row by the serialised merge of the
    document it captured and the completion fields, and the status by
    "completed". *)
Remark completion_in_context (now : Time) (r0 r : ScanResult) (doc : dict)
    (w : World) :
  json_loads (py_or (scan_data r0) (VStr "{}")) = Ok (VDict doc) ->
  filter_by_id (VStr (id r0)) (rows w) = Some r ->
  exists t1 t2,
    rows w = t1 ++ r :: t2 /\
    complete_scan true now (to_dict r0) w =
      (Ok tt, mkWorld (t1 ++ completed_row now doc r :: t2) (threads w)).
Proof.
  intros Hdoc Hr. unfold filter_by_id in Hr.
  destruct (find_split _ _ _ Hr) as (t1 & t2 & Hrows & Hn & Hid).
  exists t1, t2. split; [exact Hrows|].
  apply complete_scan_found; assumption.
Qed.

(** C8: the completion step does build its document from the dict it
    captured at creation (the copy [to_dict r0] of the row as inserted),
    but where the source runs it, in a thread without an application
    context, the storage call that should write it raises [RuntimeError],
    and the step overwrites nothing: the thread leaves the world as it was,
    so that the row with that identifier keeps what it held, whatever was
    written to it since its creation. *)
Theorem completion_thread_overwrites_nothing (now due : Time)
    (r0 r : ScanResult) (doc : dict) (w : World) :
  json_loads (py_or (scan_data r0) (VStr "{}")) = Ok (VDict doc) ->
  filter_by_id (VStr (id r0)) (rows w) = Some r ->
  complete_scan false now (to_dict r0) w = (Raise RuntimeError, w) /\
  run_thread now w (mkThread due (to_dict r0)) = w /\
  filter_by_id (VStr (id r0))
    (rows (run_thread now w (mkThread due (to_dict r0)))) = Some r.
Proof.
  intros Hdoc Hr.
  assert (E : complete_scan false now (to_dict r0) w = (Raise RuntimeError, w)).
  { unfold complete_scan, storage_call, mbind, lift, ret.
    cbn [to_dict subscript getitem lookup String.eqb Ascii.eqb Bool.eqb].
    rewrite Hdoc. reflexivity. }
  split; [exact E|].
  unfold run_thread. cbn [scan_result]. rewrite E. cbn [snd].
  split; [reflexivity | exact Hr].
Qed.

(** *** The machine *)

Lemma run_thread_world (now : Time) (w : World) (th : Thread) :
  run_thread now w th = w.
Proof. apply complete_scan_outside. Qed.

Lemma resume_rows (now : Time) (k : nat) (w : World) :
  rows (resume now k w) = rows w.
Proof.
  unfold resume. destruct (nth_error (threads w) k); [|reflexivity].
  destruct (is_due now t); [|reflexivity].
  rewrite run_thread_world. reflexivity.
Qed.

Lemma resume_threads (now : Time) (k : nat) (w : World) (th : Thread) :
  In th (threads (resume now k w)) -> In th (threads w).
Proof.
  unfold resume. destruct (nth_error (threads w) k); [|auto].
  destruct (is_due now t); [|auto].
  rewrite run_thread_world. cbn [threads]. intros H.
  rewrite <- (firstn_skipn k (threads w)).
  apply in_app_or in H. apply in_or_app.
  destruct H as [H|H]; [left; exact H|].
  right. rewrite <- (firstn_skipn 1 (skipn k (threads w))).
  apply in_or_app. right. rewrite skipn_skipn. exact H.
Qed.

(** A thread cannot resume before its sleep is over. *)
Lemma resume_early (now : Time) (k : nat) (w : World) (th : Thread) :
  nth_error (threads w) k = Some th -> now < wake_at th ->
  resume now k w = w.
Proof.
  intros Hk Hnow. unfold resume. rewrite Hk.
  unfold is_due. destruct (Z.leb_spec (wake_at th) now); [lia | reflexivity].
Qed.

Lemma create_scan_world (now : Time) (data : value) (w : World) :
  snd (create_scan now data w) = w \/
  exists r,
    id r = new_id (map id (rows w)) /\
    snd (create_scan now data w) =
      mkWorld (rows w ++ [r])
        (threads w ++ [mkThread (now + completion_delay) (to_dict r)]).
Proof.
  unfold create_scan, try_except, mbind, lift, ret.
  destruct (negb (truthy data)); [left; reflexivity|].
  destruct (validate_scan_request data) as [errors|]; [|left; reflexivity].
  destruct (truthy (VList (map VStr errors))); [left; reflexivity|].
  destruct (subscript data "businessName") as [name|]; [|left; reflexivity].
  destruct (strip name) as [name'|]; [|left; reflexivity].
  destruct (get data "website" (VStr "")) as [site|]; [|left; reflexivity].
  destruct (strip site) as [site'|]; [|left; reflexivity].
  destruct (get data "website" VNone) as [supplied|]; [|left; reflexivity].
  right. eexists. split; [|reflexivity]. reflexivity.
Qed.

Lemma get_all_results_world (w : World) : snd (get_all_results w) = w.
Proof. destruct w; reflexivity. Qed.

Lemma get_scan_result_world (scan_id : string) (w : World) :
  snd (get_scan_result scan_id w) = w.
Proof.
  unfold get_scan_result, try_except, mbind, on_table, ret.
  destruct (negb (truthy _)); destruct w; reflexivity.
Qed.

Lemma get_scan_result_found (scan_id : string) (r : ScanResult) (w : World) :
  filter_by_id (VStr scan_id) (rows w) = Some r ->
  answer (get_scan_result scan_id) w = jsonify (to_dict r) 200.
Proof.
  intros H.
  unfold answer, get_scan_result, try_except, mbind, on_table, ret.
  unfold storage_get_scan_result. rewrite H. reflexivity.
Qed.

Lemma filter_by_id_grows (s : string) (t : Table) (r x : ScanResult) :
  filter_by_id (VStr s) t = Some r ->
  filter_by_id (VStr s) (t ++ [x]) = Some r.
Proof.
  unfold filter_by_id. intros H. rewrite find_app, H. reflexivity.
Qed.

Lemma step_pending (now : Time) (e : event) (w : World) (r0 : ScanResult) :
  pending r0 (rows w) -> pending r0 (rows (step now e w)).
Proof.
  unfold pending. intros Hp. destruct e as [req|k]; cbn [step].
  - unfold handle. cbn [snd]. destruct req as [data| |scan_id]; cbn [route].
    + destruct (create_scan_world now data w) as [->|(r & _ & ->)];
        [exact Hp|].
      apply filter_by_id_grows. exact Hp.
    + rewrite get_all_results_world. exact Hp.
    + rewrite get_scan_result_world. exact Hp.
  - rewrite resume_rows. exact Hp.
Qed.

Lemma run_pending (events : list (Time * event)) (w : World)
    (r0 : ScanResult) :
  pending r0 (rows w) -> pending r0 (rows (run events w)).
Proof.
  revert w. induction events as [|[now e] events IH]; intros w Hp; cbn [run];
    [exact Hp|].
  apply IH, step_pending, Hp.
Qed.

Lemma posted_scan (t0 : Time) (d : dict) (name : string) (w0 : World) :
  ~ In (new_id (map id (rows w0))) (map id (rows w0)) ->
  lookup "businessName" d = Some (VStr name) ->
  str_or_absent "website" d = true ->
  validate_scan_request (VDict d) = Ok [] ->
  let r := scanning_row t0 d (rows w0) in
  handle t0 (PostScan (VDict d)) w0 =
    (scan_initiated_response (VStr (id r)),
     mkWorld (rows w0 ++ [r]) (threads w0 ++ [completion_thread t0 r])) /\
  pending r (rows w0 ++ [r]).
Proof.
  intros Hfresh Hn Hw Hv r.
  destruct (valid_request_shape d name Hn Hw Hv) as (Hd & Hty & Hm).
  split.
  - unfold handle, answer. cbn [route].
    rewrite (create_scan_accepts t0 d w0 Hd Hty Hw Hm). reflexivity.
  - unfold pending, filter_by_id. apply find_last; [exact Hfresh | reflexivity].
Qed.

(** C3: where the source runs the completion step, it fails, and the scan
    is never completed.  Take a request that passes validation, handled at
    [t0] in a table to which its identifier is new.  The thread that is to
    complete the scan after [completion_delay] is started, but whatever
    happens afterwards, requests arriving and threads resuming in any
    order and at any times, a fetch of the new identifier at any time, also
    two seconds after [t0] and later, answers 200 with the row as it was
    inserted: its status is still "scanning", its [scanData] the initial
    document, with no insight and no completion timestamp. *)
Theorem scan_stays_scanning (t0 : Time) (d : dict) (name : string)
    (w0 : World) (events : list (Time * event)) (t : Time) :
  ~ In (new_id (map id (rows w0))) (map id (rows w0)) ->
  lookup "businessName" d = Some (VStr name) ->
  str_or_absent "website" d = true ->
  validate_scan_request (VDict d) = Ok [] ->
  let posted := handle t0 (PostScan (VDict d)) w0 in
  let r := scanning_row t0 d (rows w0) in
  body_field (fst posted) "scanId" = Some (VStr (id r)) /\
  In (mkThread (t0 + completion_delay) (to_dict r)) (threads (snd posted)) /\
  fst (handle t (GetResult (id r)) (run events (snd posted))) =
    jsonify (to_dict r) 200 /\
  status r = VStr "scanning" /\
  scan_data r =
    VStr (dumps (VDict (initial_document t0 (dget d "website" VNone)))).
Proof.
  intros Hfresh Hn Hw Hv posted r.
  destruct (posted_scan t0 d name w0 Hfresh Hn Hw Hv) as [Hposted Hp].
  fold r in Hposted, Hp. subst posted. rewrite Hposted. cbn [fst snd].
  split; [reflexivity|]. split.
  { cbn [threads]. apply in_or_app. right. left. reflexivity. }
  split; [|split; reflexivity].
  unfold handle. cbn [fst route]. apply get_scan_result_found.
  apply run_pending. exact Hp.
Qed.

(** *** The static routes *)

Lemma views_pass_through (path : string) :
  serve_react_app = send_from_directory static_folder "index.html" /\
  (startswith "api/" path = false ->
   serve_static path = send_from_directory static_folder path) /\
  (startswith "/api/" path = false ->
   not_found path = send_from_directory static_folder "index.html").
Proof.
  unfold serve_react_app, serve_static, not_found, send_from_directory.
  split; [|split].
  - destruct (is_file static_folder "index.html"); reflexivity.
  - intros ->. destruct (is_file static_folder path); [reflexivity|].
    destruct (is_file static_folder "index.html"); reflexivity.
  - intros ->. destruct (is_file static_folder "index.html"); reflexivity.
Qed.

Lemma slash_api (path : string) :
  startswith "/api/" (String "/" path) = startswith "api/" path.
Proof.
  unfold startswith. cbn [String.prefix].
  destruct (ascii_dec "/" "/"); [reflexivity | congruence].
Qed.

(** C6: the descriptive answer for a missing bundle is never given.
    [send_from_directory] signals a missing file by the 404 exception
    [NotFound], which the [except FileNotFoundError] clauses of the views
    and of the 404 handler do not catch.  So when the entry document is
    missing, the view of the root path raises [NotFound], [serve_static]
    raises it on every path outside the API that has no file in the bundle,
    the 404 handler, which gets the exception, raises it again, and no
    answer comes out of the static routes: none of the three returns the
    "React build not found" answer that its [except] clause holds. *)
Theorem missing_bundle_is_not_described (path : string) :
  is_file static_folder "index.html" = false ->
  serve_react_app = Raise NotFound /\
  dispatch_static "" = Raise NotFound /\
  (startswith "api/" path = false -> is_file static_folder path = false ->
   serve_static path = Raise NotFound /\
   not_found (String "/" path) = Raise NotFound /\
   dispatch_static path = Raise NotFound) /\
  serve_react_app <> Ok build_not_found_response /\
  serve_static path <> Ok build_not_found_response /\
  not_found (String "/" path) <> Ok build_not_found_response.
Proof.
  intros Hindex.
  assert (Hroot : serve_react_app = Raise NotFound).
  { unfold serve_react_app, send_from_directory. rewrite Hindex. reflexivity. }
  assert (Hhandler : forall p, startswith "api/" p = false ->
                     not_found (String "/" p) = Raise NotFound).
  { intros p Hp. unfold not_found, send_from_directory.
    rewrite slash_api, Hp, Hindex. reflexivity. }
  split; [exact Hroot|]. split.
  { unfold dispatch_static, static_view. rewrite Hroot.
    apply (Hhandler ""). reflexivity. }
  split.
  { intros Hp Hfile.
    assert (Hview : serve_static path = Raise NotFound).
    { unfold serve_static, send_from_directory.
      rewrite Hp, Hfile, Hindex. reflexivity. }
    split; [exact Hview|]. split; [apply Hhandler; exact Hp|].
    unfold dispatch_static, static_view.
    destruct path as [|c p]; [rewrite Hroot | rewrite Hview];
      apply Hhandler; exact Hp. }
  split; [rewrite Hroot; discriminate|]. split.
  - unfold serve_static, send_from_directory.
    destruct (startswith "api/" path); [discriminate|].
    destruct (is_file static_folder path); [discriminate|].
    rewrite Hindex. discriminate.
  - unfold not_found, send_from_directory.
    destruct (startswith "/api/" (String "/" path)); [discriminate|].
    rewrite Hindex. discriminate.
Qed.

(** ** Further properties of the code *)

(** *** [validate_scan_request] on any body *)

Lemma succ_lt_1 (n : nat) : (Z.of_nat (S n) <? 1) = false.
Proof. apply Z.ltb_ge. lia. Qed.

Lemma truthy_len (v : value) (n : Z) :
  len v = Ok n -> (n <? 1) = negb (truthy v).
Proof.
  destruct v as [| | |s|l|d]; try discriminate; cbn [len truthy]; intros E;
    injection E as <-.
  - rewrite len_str_lt_1. destruct (String.eqb s ""); reflexivity.
  - destruct l; [reflexivity|]. cbn [List.length]. apply succ_lt_1.
  - destruct d; [reflexivity|]. cbn [List.length]. apply succ_lt_1.
Qed.

(** X1: whatever the body, [validate_scan_request] either raises
    [AttributeError] or [TypeError], or returns one of four lists: nothing,
    the message on the URL, the two messages on the name, or all three.  The
    two messages on the name are never given one without the other. *)
Theorem validation_outcomes (data : value) :
  match validate_scan_request data with
  | Ok messages =>
      exists on_name on_url,
        messages = on_name ++ on_url /\
        (on_name = [] \/ on_name = name_messages) /\
        (on_url = [] \/ on_url = url_messages)
  | Raise e => e = AttributeError \/ e = TypeError
  end.
Proof.
  unfold validate_scan_request.
  destruct data as [| | | | |d]; try (left; reflexivity).
  cbn [get bind]. unfold dget.
  assert (Hname : forall name n, len name = Ok n ->
            (if n <? 1
             then (if negb (truthy name)
                   then [] ++ ["Business name is required"] else []) ++
                  ["Business name must be at least 1 character long"]
             else if negb (truthy name)
                  then [] ++ ["Business name is required"] else []) =
            if negb (truthy name) then name_messages else []).
  { intros name n Hlen. rewrite (truthy_len name n Hlen).
    destruct (negb (truthy name)); reflexivity. }
  assert (Hurl : forall (site : string) (on_name : list string),
            on_name = [] \/ on_name = name_messages ->
            exists a b,
              (if truthy (VStr site) && negb (validate_url site)
               then on_name ++ ["Please enter a valid URL"] else on_name) =
              a ++ b /\
              (a = [] \/ a = name_messages) /\
              (b = [] \/ b = url_messages)).
  { intros site on_name Hon.
    destruct (truthy (VStr site) && negb (validate_url site)).
    - exists on_name, url_messages. auto.
    - exists on_name, []. rewrite app_nil_r. auto. }
  assert (Hsite : forall on_name : list string,
            on_name = [] \/ on_name = name_messages ->
            match
              website <- strip match lookup "website" d with
                               | Some v => v
                               | None => VStr ""
                               end ;;
              Ok (if truthy (VStr website) && negb (validate_url website)
                  then on_name ++ ["Please enter a valid URL"] else on_name)
            with
            | Ok messages =>
                exists a b,
                  messages = a ++ b /\
                  (a = [] \/ a = name_messages) /\
                  (b = [] \/ b = url_messages)
            | Raise e => e = AttributeError \/ e = TypeError
            end).
  { intros on_name Hon.
    destruct (lookup "website" d) as [[| | |s| |]|]; cbn [strip bind];
      try (left; reflexivity); apply Hurl; exact Hon. }
  destruct (lookup "businessName" d) as [name|].
  - destruct (len name) as [n|e] eqn:Hlen; cbn [bind].
    2: { destruct name; cbn [len] in Hlen; try discriminate;
         injection Hlen as <-; right; reflexivity. }
    rewrite (Hname name n Hlen). apply Hsite.
    destruct (negb (truthy name)); auto.
  - cbn [len bind]. apply (Hsite name_messages). auto.
Qed.

(** *** [create_scan] on any body *)

(** X2: whatever the body, [POST /api/scan] ends in one of four ways, and
    no exception leaves the view: 400 "No data provided" for a body that is
    false in Python's sense; 400 with the non-empty list of messages that
    validation returned; 500; or 200 with the identifier of the one row it
    has inserted, scanning, together with the one thread it has started.
    In the first three the table and the threads are as they were. *)
Theorem create_scan_outcomes (now : Time) (data : value) (w : World) :
  (truthy data = false /\
   create_scan now data w = (Ok no_data_response, w)) \/
  (exists messages,
     messages <> [] /\
     validate_scan_request data = Ok messages /\
     create_scan now data w = (Ok (validation_failed_response messages), w)) \/
  create_scan now data w = (Ok internal_error_response, w) \/
  (exists r,
     validate_scan_request data = Ok [] /\
     create_scan now data w =
       (Ok (scan_initiated_response (VStr (id r))),
        mkWorld (rows w ++ [r])
          (threads w ++ [mkThread (now + completion_delay) (to_dict r)])) /\
     id r = new_id (map id (rows w)) /\
     status r = VStr "scanning" /\
     created_at r = now /\
     updated_at r = now).
Proof.
  unfold create_scan, try_except, mbind, lift, ret.
  destruct (truthy data) eqn:Hdata; cbn [negb];
    [|left; split; reflexivity].
  right.
  destruct (validate_scan_request data) as [errors|];
    [|right; left; reflexivity].
  rewrite truthy_messages. destruct errors as [|m errors].
  2: { left. exists (m :: errors). repeat split. discriminate. }
  right.
  destruct (subscript data "businessName") as [name|];
    [|left; reflexivity].
  destruct (strip name) as [name'|]; [|left; reflexivity].
  destruct (get data "website" (VStr "")) as [site|]; [|left; reflexivity].
  destruct (strip site) as [site'|]; [|left; reflexivity].
  destruct (get data "website" VNone) as [supplied|]; [|left; reflexivity].
  right. eexists. split; [reflexivity|]. split; [reflexivity|].
  repeat split.
Qed.

Lemma lookup_get (d1 d2 : dict) (k : string) (default : value) :
  lookup k d1 = lookup k d2 ->
  get (VDict d1) k default = get (VDict d2) k default.
Proof. unfold get, dget. intros ->. reflexivity. Qed.

(** X3: [create_scan] reads two fields of the body and nothing else: two
    non-empty objects that agree on [businessName] and on [website] get the
    same answer and leave the same world, whatever else they hold. *)
Theorem create_scan_reads_two_fields (now : Time) (d1 d2 : dict) (w : World) :
  d1 <> [] -> d2 <> [] ->
  lookup "businessName" d1 = lookup "businessName" d2 ->
  lookup "website" d1 = lookup "website" d2 ->
  validate_scan_request (VDict d1) = validate_scan_request (VDict d2) /\
  create_scan now (VDict d1) w = create_scan now (VDict d2) w.
Proof.
  intros H1 H2 Hn Hw.
  assert (Hv : validate_scan_request (VDict d1) =
               validate_scan_request (VDict d2)).
  { unfold validate_scan_request.
    rewrite (lookup_get d1 d2 "businessName" VNone Hn).
    rewrite (lookup_get d1 d2 "businessName" (VStr "") Hn).
    rewrite (lookup_get d1 d2 "website" (VStr "") Hw).
    reflexivity. }
  split; [exact Hv|].
  unfold create_scan.
  rewrite (truthy_dict d1 H1), (truthy_dict d2 H2), Hv.
  rewrite (lookup_get d1 d2 "website" (VStr "") Hw).
  rewrite (lookup_get d1 d2 "website" VNone Hw).
  unfold subscript, getitem. rewrite Hn. reflexivity.
Qed.

(** X4: a [businessName] that is [null], a boolean or a number makes
    [len] raise inside validation, and a [website] that is not a string
    makes [strip] raise when the name is a string or missing: either way
    the request is answered 500 and nothing is stored, although a message
    on the name may already have been noted. *)
Theorem ill_typed_fields_are_500 (now : Time) (d : dict) (w : World) :
  (match lookup "businessName" d with
   | Some (VNone | VBool _ | VInt _) => True
   | Some (VStr _) | None =>
       match lookup "website" d with
       | Some (VStr _) | None => False
       | Some _ => True
       end
   | Some _ => False
   end) ->
  d <> [] ->
  create_scan now (VDict d) w = (Ok internal_error_response, w) /\
  exists e, validate_scan_request (VDict d) = Raise e.
Proof.
  intros Hty Hd.
  assert (Hv : exists e, validate_scan_request (VDict d) = Raise e).
  { unfold validate_scan_request. cbn [get bind]. unfold dget.
    destruct (lookup "businessName" d) as [[| | |n| |]|]; try contradiction;
      cbn [len bind]; try (eexists; reflexivity);
      destruct (lookup "website" d) as [[| | |s| |]|]; try contradiction;
      cbn [strip bind]; eexists; reflexivity. }
  split; [|exact Hv]. destruct Hv as (e & Hv).
  unfold create_scan, try_except, mbind, lift, ret.
  rewrite (truthy_dict d Hd), Hv. reflexivity.
Qed.

(** *** What [create_scan] stores *)

(** X5: a [businessName] of white space only is not empty, so validation
    lets it through, and the row is stored with the empty name that [strip]
    leaves. *)
Theorem blank_name_is_stored_empty (now : Time) (d : dict) (name : string)
    (w : World) :
  lookup "businessName" d = Some (VStr name) -> name <> "" ->
  all_space name = true ->
  lookup "website" d = None ->
  let r := scanning_row now d (rows w) in
  validate_scan_request (VDict d) = Ok [] /\
  create_scan now (VDict d) w =
    (Ok (scan_initiated_response (VStr (id r))),
     mkWorld (rows w ++ [r])
       (threads w ++ [mkThread (now + completion_delay) (to_dict r)])) /\
  business_name r = VStr "".
Proof.
  intros Hn Hne Hsp Hs r.
  assert (Ht : str_or_absent "businessName" d = true).
  { unfold str_or_absent. rewrite Hn. reflexivity. }
  assert (Hw : str_or_absent "website" d = true).
  { unfold str_or_absent. rewrite Hs. reflexivity. }
  assert (Hm : messages_for d = []).
  { unfold messages_for. rewrite Hn, Hs.
    destruct name; [congruence | reflexivity]. }
  assert (Hd : d <> []) by (intros ->; discriminate).
  split; [|split].
  - rewrite (validate_scan_request_messages d Ht Hw), Hm. reflexivity.
  - apply (create_scan_accepts now d w Hd Ht Hw Hm).
  - subst r. unfold scanning_row, str_field. rewrite Hn.
    rewrite (str_strip_all_space name Hsp). reflexivity.
Qed.

(** X6: the [website] of a row that [create_scan] stores is either [None],
    when the request had none or a blank one, or the trimmed string of the
    request, which then is not empty, has no white space at either end and
    is accepted by [validate_url]. *)
Theorem stored_website_is_valid (now : Time) (d : dict) (name : string)
    (w : World) :
  lookup "businessName" d = Some (VStr name) ->
  str_or_absent "website" d = true ->
  validate_scan_request (VDict d) = Ok [] ->
  let r := scanning_row now d (rows w) in
  let site := str_strip (str_field d "website") in
  rows (snd (create_scan now (VDict d) w)) = rows w ++ [r] /\
  ((site = "" /\ website r = VNone) \/
   (site <> "" /\ website r = VStr site /\ validate_url site = true /\
    first_is_space site = false /\ last_is_space site = false)).
Proof.
  intros Hn Hw Hv r site.
  destruct (valid_request_shape d name Hn Hw Hv) as (Hd & Ht & Hm).
  split.
  { rewrite (create_scan_accepts now d w Hd Ht Hw Hm). reflexivity. }
  assert (Hr : website r = py_or (VStr site) VNone) by reflexivity.
  rewrite Hr. unfold py_or.
  destruct (String.eqb_spec site "") as [E|E].
  - left. rewrite E. split; reflexivity.
  - right. rewrite (proj2 (truthy_str site) E).
    split; [exact E|]. split; [reflexivity|].
    destruct (str_strip_spec (str_field d "website")) as (a & b & _ & _ & _ & Hf & Hl).
    split; [|split; [exact Hf | exact Hl]].
    unfold messages_for in Hm. rewrite Hn in Hm.
    unfold site, str_field in *.
    destruct (lookup "website" d) as [[| | |s| |]|];
      try (exfalso; apply E; reflexivity).
    destruct name; [discriminate|]. cbn [app] in Hm.
    destruct (String.eqb_spec (str_strip s) ""); [contradiction|].
    destruct (validate_url (str_strip s)); [reflexivity | discriminate].
Qed.

(** *** The data store: how its operations compose *)

(** X7: a row inserted by [create_scan_result] under an identifier that is
    new to the table is what [get_scan_result] returns for that identifier,
    equal to what the insert returned; the rows that were there are found as
    before, and come first, in their order, in the table. *)
Theorem create_then_get (now : Time) (scan_data : dict) (name : value)
    (t : Table) :
  lookup "businessName" scan_data = Some name ->
  ~ In (new_id (map id t)) (map id t) ->
  exists r,
    storage_create_scan_result now scan_data t = (Ok (to_dict r), t ++ [r]) /\
    id r = new_id (map id t) /\
    storage_get_scan_result (VStr (id r)) (t ++ [r]) = to_dict r /\
    forall other, In other (map id t) ->
      storage_get_scan_result (VStr other) (t ++ [r]) =
      storage_get_scan_result (VStr other) t.
Proof.
  intros Hn Hfresh. unfold storage_create_scan_result, getitem. rewrite Hn.
  eexists. split; [reflexivity|]. split; [reflexivity|]. split.
  - unfold storage_get_scan_result, filter_by_id.
    rewrite find_last; [reflexivity | exact Hfresh | reflexivity].
  - intros other Hin. unfold storage_get_scan_result.
    destruct (filter_by_id_in other t Hin) as (r & Hr & _).
    rewrite (filter_by_id_grows other t r _ Hr), Hr. reflexivity.
Qed.

Lemma update_at (now : Time) (s : string) (updates : dict)
    (t1 t2 : Table) (r : ScanResult) :
  ~ In s (map id t1) -> id r = s ->
  storage_update_scan_result now (VStr s) updates (t1 ++ r :: t2) =
    (to_dict (mkScanResult (id r)
                (assign updates "businessName" (business_name r))
                (assign updates "website" (website r))
                (assign updates "scanData" (scan_data r))
                (assign updates "status" (status r))
                (created_at r) now),
     t1 ++ mkScanResult (id r)
             (assign updates "businessName" (business_name r))
             (assign updates "website" (website r))
             (assign updates "scanData" (scan_data r))
             (assign updates "status" (status r))
             (created_at r) now :: t2).
Proof.
  intros Hn <-. unfold storage_update_scan_result, filter_by_id.
  rewrite find_middle by exact Hn. rewrite String.eqb_refl.
  f_equal. apply commit_split; [reflexivity | exact Hn].
Qed.

Lemma assign_twice (u1 u2 : dict) (k : string) (column : value) :
  contains k u1 = contains k u2 ->
  assign u2 k (assign u1 k column) = assign u2 k column.
Proof.
  unfold assign. intros E. rewrite E. destruct (contains k u2); reflexivity.
Qed.

(** X8: after [update_scan_result] has returned a record, [get_scan_result]
    on the same identifier returns that very record; and an update that
    gives the same keys as an earlier one leaves no trace of the earlier
    one: the outcome is the one the later update alone would have had. *)
Theorem update_then_get (now : Time) (scan_id : value) (updates : dict)
    (t : Table) (r : ScanResult) :
  filter_by_id scan_id t = Some r ->
  let (record, t') := storage_update_scan_result now scan_id updates t in
  storage_get_scan_result scan_id t' = record /\
  forall later updates',
    (forall k, contains k updates = contains k updates') ->
    storage_update_scan_result later scan_id updates' t' =
    storage_update_scan_result later scan_id updates' t.
Proof.
  intros Hr. destruct (filter_by_id_found _ _ _ Hr) as [-> _].
  unfold filter_by_id in Hr.
  destruct (find_split _ _ _ Hr) as (t1 & t2 & -> & Hn & _).
  rewrite (update_at now (id r) updates t1 t2 r Hn eq_refl). split.
  - unfold storage_get_scan_result, filter_by_id.
    rewrite find_middle by exact Hn. cbn [id].
    rewrite String.eqb_refl. reflexivity.
  - intros later updates' Hk.
    rewrite (update_at later (id r) updates' t1 t2 r Hn eq_refl).
    match goal with
    | |- storage_update_scan_result _ _ _ (_ ++ ?r1 :: _) = _ =>
        rewrite (update_at later (id r) updates' t1 t2 r1 Hn eq_refl)
    end.
    cbn [business_name website scan_data status created_at id].
    rewrite !assign_twice by apply Hk. reflexivity.
Qed.

Lemma filter_by_id_none (s : string) (t : Table) :
  filter_by_id (VStr s) t = None -> ~ In s (map id t).
Proof.
  intros H Hin. destruct (filter_by_id_in s t Hin) as (r & Hr & _).
  congruence.
Qed.

(** X9: [GET /api/results/<id>] never fails and never changes the world:
    it answers 200 with the copy of a stored row that has the identifier
    asked for, the first in the table, when there is one, and 404
    otherwise. *)
Theorem get_scan_result_outcomes (scan_id : string) (w : World) :
  (exists r t1 t2,
     rows w = t1 ++ r :: t2 /\ ~ In scan_id (map id t1) /\ id r = scan_id /\
     get_scan_result scan_id w = (Ok (jsonify (to_dict r) 200), w) /\
     body_field (jsonify (to_dict r) 200) "id" = Some (VStr scan_id)) \/
  (~ In scan_id (map id (rows w)) /\
   get_scan_result scan_id w = (Ok scan_not_found_response, w)).
Proof.
  unfold get_scan_result, try_except, mbind, on_table, ret.
  unfold storage_get_scan_result.
  destruct (filter_by_id (VStr scan_id) (rows w)) as [r|] eqn:Hr.
  - left. pose proof Hr as Hf. unfold filter_by_id in Hf.
    destruct (find_split _ _ _ Hf) as (t1 & t2 & Hrows & Hn & Hid).
    exists r, t1, t2. repeat split; try assumption.
    + destruct w; reflexivity.
    + cbn. rewrite Hid. reflexivity.
  - right. split; [apply filter_by_id_none; exact Hr|].
    destruct w; reflexivity.
Qed.

(** *** The completion step on any snapshot *)

Lemma update_fixed_columns (now : Time) (scan_id : value) (updates : dict)
    (t : Table) :
  contains "businessName" updates = false ->
  contains "website" updates = false ->
  map fixed_columns (snd (storage_update_scan_result now scan_id updates t)) =
  map fixed_columns t.
Proof.
  intros Hn Hw.
  destruct (filter_by_id scan_id t) as [r|] eqn:Hr.
  - destruct (filter_by_id_found _ _ _ Hr) as [-> _].
    unfold filter_by_id in Hr.
    destruct (find_split _ _ _ Hr) as (t1 & t2 & -> & Hnot & _).
    rewrite (update_at now (id r) updates t1 t2 r Hnot eq_refl).
    cbn [snd]. rewrite !map_app. cbn [map]. unfold fixed_columns at 2 4.
    cbn [id business_name website created_at]. unfold assign.
    rewrite Hn, Hw. reflexivity.
  - unfold storage_update_scan_result. rewrite Hr. reflexivity.
Qed.

Lemma complete_scan_fixed_columns (ctx : bool) (now : Time) (sr : value)
    (w : World) :
  map fixed_columns (rows (snd (complete_scan ctx now sr w))) =
  map fixed_columns (rows w).
Proof.
  destruct ctx; [|rewrite complete_scan_outside; reflexivity].
  unfold complete_scan, storage_call, mbind, lift, on_table, ret.
  destruct (subscript sr "scanData"); [|reflexivity].
  destruct (json_loads _); [|reflexivity].
  destruct (py_update _ _); [|reflexivity].
  destruct (subscript sr "id") as [i|]; [|reflexivity].
  match goal with
  | |- context [storage_update_scan_result ?n ?i ?u ?t] =>
      pose proof (update_fixed_columns n i u t eq_refl eq_refl) as H;
      destruct (storage_update_scan_result n i u t)
  end.
  exact H.
Qed.

(** X10: whatever dict it holds and whatever the table, with or without an
    application context, the completion step starts no thread, inserts and
    removes no row, and leaves the identifier, name, website and creation
    time of every row as they were; it leaves alone every row whose
    identifier is not the one of its dict; and when it raises, the table is
    untouched. *)
Theorem completion_frame (ctx : bool) (now : Time) (sr : value) (w : World) :
  let w' := snd (complete_scan ctx now sr w) in
  threads w' = threads w /\
  map fixed_columns (rows w') = map fixed_columns (rows w) /\
  (forall other, subscript sr "id" <> Ok (VStr other) ->
     filter_by_id (VStr other) (rows w') = filter_by_id (VStr other) (rows w)) /\
  (forall e, fst (complete_scan ctx now sr w) = Raise e -> w' = w).
Proof.
  cbv zeta. split; [apply complete_scan_threads|]. split; [|split].
  - apply complete_scan_fixed_columns.
  - intros other. apply complete_scan_keeps_others.
  - intros e. destruct ctx; [|intros _; apply complete_scan_outside].
    unfold complete_scan, storage_call, mbind, lift, on_table, ret.
    destruct (subscript sr "scanData"); [|reflexivity].
    destruct (json_loads _); [|reflexivity].
    destruct (py_update _ _); [|reflexivity].
    destruct (subscript sr "id") as [i|]; [|reflexivity].
    destruct (storage_update_scan_result _ _ _ _). discriminate.
Qed.

(** *** The machine: what every run keeps *)

Lemma route_rows (now : Time) (req : request) (w : World) :
  snd (route now req w) = w \/
  exists r, id r = new_id (map id (rows w)) /\
            status r = VStr "scanning" /\
            snd (route now req w) =
              mkWorld (rows w ++ [r])
                (threads w ++ [mkThread (now + completion_delay) (to_dict r)])
            /\ exists data, req = PostScan data.
Proof.
  destruct req as [data| |scan_id]; cbn [route].
  - unfold create_scan, try_except, mbind, lift, ret.
    destruct (negb (truthy data)); [left; reflexivity|].
    destruct (validate_scan_request data) as [errors|]; [|left; reflexivity].
    destruct (truthy (VList (map VStr errors))); [left; reflexivity|].
    destruct (subscript data "businessName") as [name|]; [|left; reflexivity].
    destruct (strip name) as [name'|]; [|left; reflexivity].
    destruct (get data "website" (VStr "")) as [site|]; [|left; reflexivity].
    destruct (strip site) as [site'|]; [|left; reflexivity].
    destruct (get data "website" VNone) as [supplied|]; [|left; reflexivity].
    right. eexists.
    split; [|split; [|split; [reflexivity | exists data; reflexivity]]];
      reflexivity.
  - left. apply get_all_results_world.
  - left. apply get_scan_result_world.
Qed.

(** Whatever happens, the rows of the table stay, as they are and where
    they are, and those that are inserted come after them, scanning, at
    most one for each posted scan. *)
Lemma run_rows (events : list (Time * event)) (w : World) :
  exists added,
    rows (run events w) = rows w ++ added /\
    (List.length added <= posts events)%nat /\
    Forall (fun r => status r = VStr "scanning") added.
Proof.
  revert w. induction events as [|[now e] events IH]; intros w; cbn [run].
  - exists []. rewrite app_nil_r.
    split; [reflexivity|]. split; [apply Nat.le_0_l | constructor].
  - destruct (IH (step now e w)) as (added & E & L & S).
    destruct e as [req|k]; cbn [step] in *.
    + unfold handle in *. cbn [snd] in *.
      destruct (route_rows now req w) as [R|(r & _ & Hs & R & data & ->)];
        rewrite R in E |- *.
      * exists added. split; [exact E|]. split; [|exact S].
        unfold posts in *. cbn [filter snd].
        destruct req; cbn [List.length]; lia.
      * exists (r :: added). cbn [rows] in E. rewrite E, <- app_assoc.
        split; [reflexivity|]. split; [|constructor; assumption].
        unfold posts in *. cbn [filter snd List.length]. lia.
    + rewrite resume_rows in E. exists added.
      split; [exact E|]. split; [|exact S].
      unfold posts in *. cbn [filter snd]. exact L.
Qed.

(** X14: no run of the server removes or reorders a row, or changes the
    identifier, the name, the website or the creation time of one: after
    any requests and any resumptions of threads, these columns of the table
    are what they were, followed by those of the rows inserted since, at
    most one for each posted scan. *)
Theorem rows_are_kept (events : list (Time * event)) (w : World) :
  exists added,
    map fixed_columns (rows (run events w)) =
      map fixed_columns (rows w) ++ added /\
    (List.length added <= posts events)%nat.
Proof.
  destruct (run_rows events w) as (added & E & L & _).
  exists (map fixed_columns added). rewrite E, map_app, length_map.
  split; [reflexivity | exact L].
Qed.

Lemma step_well_formed (now : Time) (e : event) (w : World) :
  (forall ids, ~ In (new_id ids) ids) ->
  well_formed w -> well_formed (step now e w).
Proof.
  intros Hfresh [Hnd Hk]. destruct e as [req|k]; cbn [step].
  - unfold handle. cbn [snd].
    destruct (route_rows now req w) as [->|(r & Hid & _ & -> & _)];
      [split; assumption|].
    split; cbn [rows threads].
    + rewrite map_app. cbn [map].
      eapply Permutation_NoDup; [apply Permutation_cons_append|].
      constructor; [rewrite Hid; apply Hfresh | exact Hnd].
    + intros th s Hin Htg. cbn [rows threads] in *.
      rewrite map_app. apply in_or_app. apply in_app_or in Hin.
      destruct Hin as [Hin|[<-|[]]].
      * left. exact (Hk th s Hin Htg).
      * right. unfold target in Htg. cbn in Htg. injection Htg as <-.
        left. reflexivity.
  - split.
    + rewrite resume_rows. exact Hnd.
    + intros th s Hin Htg. rewrite resume_rows.
      apply (Hk th s); [apply (resume_threads now k w th Hin) | exact Htg].
Qed.

(** X15: with identifiers that are new on insert, every run of the server
    keeps the identifiers of the table distinct and every waiting thread
    bound to a stored row. *)
Theorem run_well_formed (events : list (Time * event)) (w : World) :
  (forall ids, ~ In (new_id ids) ids) ->
  well_formed w -> well_formed (run events w).
Proof.
  intros Hfresh. revert w.
  induction events as [|[now e] events IH]; intros w Hw; cbn [run];
    [exact Hw|].
  apply IH, step_well_formed; assumption.
Qed.

(** *** The machine: before the delay has elapsed *)

(** X16: take a request that passes validation, handled at [t0] in a world
    whose waiting threads are bound to stored rows, with identifiers that
    are new on insert.  As long as every request arrives, and every thread
    resumes, before [t0 + completion_delay], a fetch of the new identifier
    answers 200 with the row as inserted, its status "scanning" and its
    [scanData] the initial document. *)
Theorem scan_pending_before_delay (t0 : Time) (d : dict) (name : string)
    (w0 : World) (events : list (Time * event)) (t : Time) :
  threads_known w0 ->
  (forall ids, ~ In (new_id ids) ids) ->
  lookup "businessName" d = Some (VStr name) ->
  str_or_absent "website" d = true ->
  validate_scan_request (VDict d) = Ok [] ->
  Forall (fun e => fst e < t0 + completion_delay) events ->
  t < t0 + completion_delay ->
  let posted := handle t0 (PostScan (VDict d)) w0 in
  let r := scanning_row t0 d (rows w0) in
  body_field (fst posted) "scanId" = Some (VStr (id r)) /\
  fst (handle t (GetResult (id r)) (run events (snd posted))) =
    jsonify (to_dict r) 200 /\
  status r = VStr "scanning" /\
  scan_data r =
    VStr (dumps (VDict (initial_document t0 (dget d "website" VNone)))).
Proof.
  intros _ Hfresh Hn Hw Hv _ _ posted r.
  destruct (posted_scan t0 d name w0 (Hfresh _) Hn Hw Hv) as [Hposted Hp].
  fold r in Hposted, Hp. subst posted. rewrite Hposted. cbn [fst snd].
  split; [reflexivity|]. split; [|split; reflexivity].
  unfold handle. cbn [fst route]. apply get_scan_result_found.
  apply run_pending. exact Hp.
Qed.

(** *** The static routes, as Flask dispatches them *)

(** *** The users *)

Lemma find_user_last (p : User -> bool) (t : list User) (u : User) :
  (forall x, In x t -> p x = false) -> p u = true ->
  find p (t ++ [u]) = Some u.
Proof.
  intros Hn Hu. induction t as [|x t IH]; simpl.
  - rewrite Hu. reflexivity.
  - rewrite (Hn x (or_introl eq_refl)). apply IH.
    intros y Hy. apply Hn. right. exact Hy.
Qed.

(** X18: [create_user] needs both [username] and [password]: without one
    of them it raises [KeyError] and inserts nothing.  With both, and an
    identifier and a name that no stored user has, the user it inserts is
    the one [get_user] returns for the new identifier and
    [get_user_by_username] for the name, as [create_user] returned it, and
    its password is stored as it was given. *)
Theorem create_user_then_get (user_data : dict) (t : list User) :
  ((lookup "username" user_data = None \/
    lookup "password" user_data = None) ->
   storage_create_user user_data t = (Raise KeyError, t)) /\
  (forall name secret,
     lookup "username" user_data = Some (VStr name) ->
     lookup "password" user_data = Some secret ->
     ~ In (new_id (map user_id t)) (map user_id t) ->
     (forall u, In u t -> username u <> VStr name) ->
     exists user,
       storage_create_user user_data t =
         (Ok (user_to_dict user), t ++ [user]) /\
       password user = secret /\
       storage_get_user (VStr (user_id user)) (t ++ [user]) =
         user_to_dict user /\
       storage_get_user_by_username (VStr name) (t ++ [user]) =
         user_to_dict user).
Proof.
  unfold storage_create_user, getitem. split.
  - intros [H|H]; rewrite H; [reflexivity|].
    destruct (lookup "username" user_data); reflexivity.
  - intros name secret Hn Hp Hfresh Hfree. rewrite Hn, Hp.
    eexists. split; [reflexivity|]. split; [reflexivity|]. split.
    + unfold storage_get_user, user_by_id. cbn [user_id].
      rewrite find_user_last; [reflexivity| |apply String.eqb_refl].
      intros x Hx. apply String.eqb_neq. intros E. apply Hfresh.
      rewrite <- E. apply in_map. exact Hx.
    + unfold storage_get_user_by_username, user_by_username.
      rewrite find_user_last; [reflexivity| |cbn; apply String.eqb_refl].
      intros x Hx. specialize (Hfree x Hx).
      destruct (username x) as [| | |s'| |]; try reflexivity.
      apply String.eqb_neq. congruence.
Qed.

(** *** The settings *)

Lemma lower_char_letter (c x : ascii) :
  (97 <=? nat_of_ascii x)%nat = true -> (nat_of_ascii x <=? 122)%nat = true ->
  lower_char c = x <->
  c = x \/ (nat_of_ascii c + 32 = nat_of_ascii x)%nat.
Proof.
  intros Hlo Hhi. apply Nat.leb_le in Hlo, Hhi. unfold lower_char.
  pose proof (nat_ascii_bounded c) as Hc.
  destruct (((65 <=? nat_of_ascii c) && (nat_of_ascii c <=? 90)
             || (192 <=? nat_of_ascii c) && (nat_of_ascii c <=? 222)
                && negb (nat_of_ascii c =? 215))%nat) eqn:Hcase.
  - apply Bool.orb_true_iff in Hcase. split.
    + intros E. right. rewrite <- E. rewrite nat_ascii_embedding; [reflexivity|].
      destruct Hcase as [H|H].
      * apply andb_prop in H. destruct H as [_ H]. apply Nat.leb_le in H. lia.
      * apply andb_prop in H. destruct H as [H _]. apply andb_prop in H.
        destruct H as [_ H]. apply Nat.leb_le in H. lia.
    + intros [E|E].
      * exfalso. subst x. destruct Hcase as [H|H].
        -- apply andb_prop in H. destruct H as [_ H]. apply Nat.leb_le in H. lia.
        -- apply andb_prop in H. destruct H as [H _]. apply andb_prop in H.
           destruct H as [H _]. apply Nat.leb_le in H. lia.
      * rewrite E. apply ascii_nat_embedding.
  - split; [intros E; left; exact E|].
    intros [E|E]; [exact E|]. exfalso.
    apply Bool.orb_false_iff in Hcase. destruct Hcase as [H _].
    apply Bool.andb_false_iff in H.
    destruct H as [H|H]; apply Nat.leb_gt in H; lia.
Qed.

(** X19: the port is 5000 when [PORT] is not set, and what [int] makes of
    it otherwise, the failure of [int] being the failure of the whole; the
    host is [HOST], or all interfaces when it is not set; and debugging is
    on exactly when [DEBUG] is set to the four letters of "true", each in
    either case. *)
Theorem settings_of_environment (env : environ) :
  (getenv env "PORT" = None ->
   exists cfg, settings env = Ok cfg /\ port cfg = 5000) /\
  (forall s, getenv env "PORT" = Some s ->
     (forall e, int_of_str s = Raise e -> settings env = Raise e) /\
     (forall n, int_of_str s = Ok n ->
        exists cfg, settings env = Ok cfg /\ port cfg = n)) /\
  (forall cfg, settings env = Ok cfg ->
     host cfg = match getenv env "HOST" with
                | Some h => VStr h
                | None => VStr "0.0.0.0"
                end /\
     (debug cfg = true <->
      exists t r u e,
        getenv env "DEBUG" =
          Some (String t (String r (String u (String e "")))) /\
        (t = "t" \/ t = "T")%char /\ (r = "r" \/ r = "R")%char /\
        (u = "u" \/ u = "U")%char /\ (e = "e" \/ e = "E")%char)).
Proof.
  unfold settings, environ_get. split; [|split].
  - intros ->. eexists. split; reflexivity.
  - intros s ->. cbn [py_int]. split.
    + intros e ->. reflexivity.
    + intros n ->. eexists. split; reflexivity.
  - intros cfg H.
    destruct (py_int _) as [p|]; [|discriminate]. cbn [bind] in H.
    injection H as <-. cbn [host debug]. split.
    { destruct (getenv env "HOST"); reflexivity. }
    assert (L : forall c x : ascii,
              (97 <=? nat_of_ascii x)%nat = true ->
              (nat_of_ascii x <=? 122)%nat = true ->
              lower_char c = x ->
              c = x \/ c = ascii_of_nat (nat_of_ascii x - 32)).
    { intros c x Hlo Hhi E.
      apply (lower_char_letter c x Hlo Hhi) in E. destruct E as [E|E];
        [left; exact E|]. right.
      replace (nat_of_ascii x - 32)%nat with (nat_of_ascii c) by lia.
      symmetry. apply ascii_nat_embedding. }
    destruct (getenv env "DEBUG") as [flag|].
    + split.
      * intros E. apply String.eqb_eq in E.
        destruct flag as [|t [|r [|u [|e [|]]]]]; try discriminate.
        cbn [str_lower] in E. injection E as Et Er Eu Ee.
        exists t, r, u, e. split; [reflexivity|].
        repeat split;
          [apply (L t "t"%char) | apply (L r "r"%char)
          | apply (L u "u"%char) | apply (L e "e"%char)];
          auto.
      * intros (t & r & u & e & E & Ht & Hr & Hu & He).
        injection E as ->.
        destruct Ht as [-> | ->], Hr as [-> | ->], Hu as [-> | ->],
                 He as [-> | ->]; reflexivity.
    + split; [discriminate|].
      intros (t & r & u & e & E & _). discriminate.
Qed.


(** *** The machine: the status only moves forward *)

Lemma Forall2_same (t : Table) : Forall2 no_step_back t t.
Proof. induction t; constructor; [intros H; exact H | assumption]. Qed.

(** X20: in any run of the server, a scan that is completed stays
    completed: the rows of the table after the run begin with the rows it
    had, each of them completed if it was; and when every scan was scanning
    or completed at the start, every scan is scanning or completed at the
    end. *)
Theorem status_moves_forward (events : list (Time * event)) (w : World) :
  (exists kept added,
     rows (run events w) = kept ++ added /\
     Forall2 no_step_back (rows w) kept) /\
  (Forall scanning_or_completed (rows w) ->
   Forall scanning_or_completed (rows (run events w))).
Proof.
  destruct (run_rows events w) as (added & E & _ & S). split.
  - exists (rows w), added. split; [exact E | apply Forall2_same].
  - intros H. rewrite E. apply Forall_app. split; [exact H|].
    eapply Forall_impl; [|exact S]. intros r Hr. left. exact Hr.
Qed.

End App.

(** ** The application on the sample library *)

Lemma longest_length (ids : list string) (i : string) :
  In i ids -> (String.length i <= String.length (Lib.longest ids))%nat.
Proof.
  induction ids as [|x ids IH]; simpl; [intros []|].
  intros [E|Hin];
    destruct (Nat.ltb_spec (String.length (Lib.longest ids)) (String.length x));
    try (subst x; lia); specialize (IH Hin); lia.
Qed.

Lemma sample_new_id_fresh (ids : list string) : ~ In (Lib.new_id ids) ids.
Proof.
  intros H. apply longest_length in H. unfold Lib.new_id in H.
  simpl in H. lia.
Qed.

Example sample_urlparse_absolute :
  validate_url Lib.urlparse "https://acme.example" = true /\
  validate_url Lib.urlparse "acme.example" = false /\
  validate_url Lib.urlparse "mailto:alice" = false /\
  validate_url Lib.urlparse "//acme.example/about" = false /\
  validate_url Lib.urlparse "http://[::1" = false.
Proof. repeat split; reflexivity. Qed.

Example sample_json_reads_back :
  let doc := VDict (initial_document Lib.isoformat Example.midnight
                      (VStr "https://acme.example")) in
  Lib.loads (Lib.dumps doc) = Ok doc /\ Lib.loads "{}" = Ok (VDict []) /\
  Lib.isoformat Example.midnight = "2024-11-04T00:00:00".
Proof. repeat split; vm_compute; reflexivity. Qed.

(** *** Examples of the properties *)

Local Notation post_scan :=
  (create_scan Lib.urlparse Lib.dumps Lib.isoformat Lib.new_id).
Local Notation serve :=
  (handle Lib.urlparse Lib.dumps Lib.isoformat Lib.new_id Example.oldest_first).
Local Notation serve_all :=
  (run Lib.urlparse Lib.dumps Lib.loads Lib.isoformat Lib.new_id
     Example.oldest_first).

(** C1, as the specification words it, fails on the empty object: its
    [businessName] is missing, and the answer, 400 "No data provided", has
    no list of messages. *)
Lemma empty_object_rejected_without_messages :
  name_missing [] /\
  answer (post_scan Example.midnight (VDict [])) Example.no_rows =
    no_data_response /\
  body_field no_data_response "details" = None /\
  ~ (exists messages,
       itemized_rejection
         (answer (post_scan Example.midnight (VDict [])) Example.no_rows)
         messages).
Proof.
  split; [left; reflexivity|]. split; [reflexivity|]. split; [reflexivity|].
  intros (messages & _ & H). discriminate H.
Qed.

(** A body without [businessName] is answered with both messages on the
    name. *)
Lemma validation_rejects_exactly_witness :
  Example.no_name <> [] /\
  itemized_rejection
    (answer (post_scan Example.midnight (VDict Example.no_name)) Example.no_rows)
    ["Business name is required";
     "Business name must be at least 1 character long"].
Proof.
  split; [discriminate|].
  apply (validation_rejects_exactly Lib.urlparse Lib.dumps Lib.isoformat
           Lib.new_id Example.midnight Example.no_name Example.no_rows).
  - discriminate.
  - reflexivity.
  - reflexivity.
  - reflexivity.
Defined.

(** What the amended C1 leaves out: a [businessName] that is [null] makes
    [len] raise, and the request is answered 500; a [website] without a
    scheme is answered with the message on the URL. *)
Example other_bodies :
  answer (post_scan Example.midnight (VDict Example.null_name)) Example.no_rows =
    internal_error_response /\
  answer (post_scan Example.midnight (VDict Example.no_scheme)) Example.no_rows =
    validation_failed_response ["Please enter a valid URL"].
Proof. split; reflexivity. Qed.

(** The request of the specification, on the empty table. *)
Lemma create_scan_persists_scanning_row_witness :
  validate_scan_request Lib.urlparse (VDict Example.acme) = Ok [] /\
  exists r,
    post_scan Example.midnight (VDict Example.acme) Example.no_rows =
      (Ok (scan_initiated_response (VStr "1")),
       mkWorld [r]
         [mkThread (Example.after_seconds 2) (to_dict Lib.isoformat r)]) /\
    id r = "1" /\ status r = VStr "scanning".
Proof.
  split; [reflexivity|]. eexists. split.
  - apply (create_scan_persists_scanning_row Lib.urlparse Lib.dumps
             Lib.isoformat Lib.new_id Example.midnight Example.acme "Acme Co"
             Example.no_rows); reflexivity.
  - split; reflexivity.
Defined.

(** C3, on the request of the specification posted on the empty table:
    a listing after one second, the thread resuming after two seconds, and
    a fetch of the scan after three seconds, which still finds it
    scanning. *)
Lemma scan_stays_scanning_witness :
  let r := scanning_row Lib.dumps Lib.isoformat Lib.new_id Example.midnight
             Example.acme [] in
  Example.midnight + completion_delay <= Example.after_seconds 2 /\
  fst (serve (Example.after_seconds 3) (GetResult (id r))
         (serve_all [(Example.after_seconds 1, Arrives GetResults);
                     (Example.after_seconds 2, Resumes 0)]
            (snd (serve Example.midnight (PostScan (VDict Example.acme))
                    Example.no_rows)))) =
    jsonify (to_dict Lib.isoformat r) 200 /\
  status r = VStr "scanning".
Proof.
  cbv zeta. split; [vm_compute; discriminate|].
  assert (Hfresh : ~ In (Lib.new_id (map id (rows Example.no_rows)))
                        (map id (rows Example.no_rows)))
    by (intros []).
  assert (Hname : lookup "businessName" Example.acme = Some (VStr "Acme Co"))
    by reflexivity.
  assert (Hsite : str_or_absent "website" Example.acme = true)
    by reflexivity.
  assert (Hvalid : validate_scan_request Lib.urlparse (VDict Example.acme) =
                     Ok [])
    by reflexivity.
  pose proof (scan_stays_scanning Lib.urlparse Lib.dumps Lib.loads
                Lib.isoformat Lib.new_id Example.oldest_first
                Example.midnight Example.acme "Acme Co" Example.no_rows
                [(Example.after_seconds 1, Arrives GetResults);
                 (Example.after_seconds 2, Resumes 0)]
                (Example.after_seconds 3) Hfresh Hname Hsite Hvalid) as H.
  cbv zeta in H. destruct H as (_ & _ & Hfetch & Hstatus & _).
  split; [exact Hfetch | exact Hstatus].
Defined.

(** C4, on a table of two rows: an update of the status of the second
    leaves its name, its website and its [scanData] as they were. *)
Lemma update_changes_only_given_fields_witness :
  let t := [Example.first_row; Example.second_row] in
  let done := storage_update_scan_result Lib.isoformat
                (Example.after_seconds 2) (VStr "2")
                [("status", VStr "completed")] t in
  In "2" (map id t) /\
  exists r r',
    id r = "2" /\
    fst done = to_dict Lib.isoformat r' /\
    status r' = VStr "completed" /\
    business_name r' = business_name r /\
    website r' = website r /\
    scan_data r' = scan_data r /\
    created_at r' = created_at r /\
    updated_at r' = Example.after_seconds 2.
Proof.
  cbv zeta.
  assert (Hin : In "2" (map id [Example.first_row; Example.second_row]))
    by (right; left; reflexivity).
  split; [exact Hin|].
  destruct (proj2 (proj2 (update_changes_only_given_fields Lib.isoformat
                            (Example.after_seconds 2) "2"
                            [("status", VStr "completed")]
                            [Example.first_row; Example.second_row])) Hin)
    as (r & r' & t1 & t2 & _ & _ & Hid & E & _ & _ & Hc & Hu & Hn & Hw & Hd
        & Hs).
  exists r, r'. rewrite E.
  split; [exact Hid|]. split; [reflexivity|]. split; [exact Hs|].
  split; [exact Hn|]. split; [exact Hw|]. split; [exact Hd|].
  split; [exact Hc | exact Hu].
Defined.

(** C5, as the specification words it, fails on two rows created at the same
    instant: however the database orders them, the listing is not strictly
    descending. *)
Lemma same_instant_is_not_strictly_descending :
  created_at Example.first_row = created_at Example.second_row /\
  order_by_created_at_desc Example.oldest_first
    [Example.first_row; Example.second_row] =
    [Example.first_row; Example.second_row] /\
  order_by_created_at_desc Example.latest_first
    [Example.first_row; Example.second_row] =
    [Example.second_row; Example.first_row] /\
  forall tie_break,
    ~ StronglySorted newer
        (order_by_created_at_desc tie_break
           [Example.first_row; Example.second_row]).
Proof.
  split; [reflexivity|]. split; [reflexivity|]. split; [reflexivity|].
  intros tie_break H. cbn in H.
  destruct (tie_break Example.first_row Example.second_row);
    apply StronglySorted_inv in H; destruct H as [_ H];
    apply Forall_inv in H; unfold newer in H; cbn in H; lia.
Qed.

(** Three rows of three creation times, inserted in another order. *)
Lemma results_newest_first_witness :
  let later := mkScanResult "3" (VStr "Crane AG") VNone VNone
                 (VStr "scanning") (Example.after_seconds 1)
                 (Example.after_seconds 1) in
  let earlier := mkScanResult "4" (VStr "Dune SA") VNone VNone
                   (VStr "scanning") (Example.after_seconds (-1))
                   (Example.after_seconds (-1)) in
  let t := [Example.first_row; later; earlier] in
  NoDup (map created_at t) /\
  order_by_created_at_desc Example.oldest_first t =
    [later; Example.first_row; earlier] /\
  StronglySorted newer (order_by_created_at_desc Example.oldest_first t).
Proof.
  cbv zeta.
  assert (Hd : NoDup (map created_at
                        [Example.first_row;
                         mkScanResult "3" (VStr "Crane AG") VNone VNone
                           (VStr "scanning") (Example.after_seconds 1)
                           (Example.after_seconds 1);
                         mkScanResult "4" (VStr "Dune SA") VNone VNone
                           (VStr "scanning") (Example.after_seconds (-1))
                           (Example.after_seconds (-1))])).
  { repeat constructor; cbn; intros H;
      repeat (destruct H as [H|H]; [discriminate H|]); exact H. }
  split; [exact Hd|]. split; [reflexivity|].
  exact (proj1 (proj2 (proj2
           (results_newest_first Lib.isoformat Example.oldest_first
              (mkWorld
                 [Example.first_row;
                  mkScanResult "3" (VStr "Crane AG") VNone VNone
                    (VStr "scanning") (Example.after_seconds 1)
                    (Example.after_seconds 1);
                  mkScanResult "4" (VStr "Dune SA") VNone VNone
                    (VStr "scanning") (Example.after_seconds (-1))
                    (Example.after_seconds (-1))] [])))) Hd).
Defined.

(** C6, on a static folder without a bundle: the root path and a path of
    the client are answered with the exception, not with the JSON of the
    views. *)
Lemma missing_bundle_is_not_described_witness :
  Example.no_bundle "dist" "index.html" = false /\
  dispatch_static "dist" Example.no_bundle "" = Raise NotFound /\
  dispatch_static "dist" Example.no_bundle "dashboard" = Raise NotFound /\
  serve_react_app "dist" Example.no_bundle <> Ok build_not_found_response.
Proof.
  assert (Hindex : Example.no_bundle "dist" "index.html" = false)
    by reflexivity.
  split; [exact Hindex|].
  destruct (missing_bundle_is_not_described "dist" Example.no_bundle
              "dashboard" Hindex)
    as (_ & Hroot & Hpath & Hview & _).
  split; [exact Hroot|]. split; [|exact Hview].
  destruct (Hpath eq_refl eq_refl) as (_ & _ & H). exact H.
Defined.

(** An identifier that is not in the table. *)
Lemma unknown_scan_is_404_witness :
  let w := snd (post_scan Example.midnight (VDict Example.acme)
                  Example.no_rows) in
  map id (rows w) = ["1"] /\
  status_code (answer (get_scan_result Lib.isoformat "2") w) = 404.
Proof.
  cbv zeta. split; [reflexivity|].
  apply (unknown_scan_is_404 Lib.isoformat "2").
  intros [H|[]]. discriminate H.
Defined.

(** C8, on a row whose [scanData] was overwritten after its creation: the
    thread resumes after two seconds, and what was written is still
    there. *)
Lemma completion_thread_overwrites_nothing_witness :
  let r0 := scanning_row Lib.dumps Lib.isoformat Lib.new_id Example.midnight
              Example.acme [] in
  let overwritten :=
    mkScanResult (id r0) (business_name r0) (website r0)
      (VStr "overwritten") (status r0) (created_at r0)
      (Example.after_seconds 1) in
  let w := mkWorld [overwritten] [] in
  let th := mkThread (Example.after_seconds 2) (to_dict Lib.isoformat r0) in
  run_thread Lib.dumps Lib.loads Lib.isoformat (Example.after_seconds 2) w th
    = w /\
  exists r,
    filter_by_id (VStr "1")
      (rows (run_thread Lib.dumps Lib.loads Lib.isoformat
               (Example.after_seconds 2) w th)) = Some r /\
    scan_data r = VStr "overwritten" /\
    status r = VStr "scanning".
Proof.
  cbv zeta.
  assert (Hdoc : json_loads Lib.loads
                   (py_or (scan_data
                             (scanning_row Lib.dumps Lib.isoformat Lib.new_id
                                Example.midnight Example.acme []))
                      (VStr "{}")) =
                 Ok (VDict (initial_document Lib.isoformat Example.midnight
                              (VStr "https://acme.example"))))
    by (vm_compute; reflexivity).
  pose proof (completion_thread_overwrites_nothing Lib.dumps Lib.loads
                Lib.isoformat (Example.after_seconds 2)
                (Example.after_seconds 2)
                (scanning_row Lib.dumps Lib.isoformat Lib.new_id
                   Example.midnight Example.acme [])
                (mkScanResult "1" (VStr "Acme Co")
                   (VStr "https://acme.example") (VStr "overwritten")
                   (VStr "scanning") Example.midnight
                   (Example.after_seconds 1))
                (initial_document Lib.isoformat Example.midnight
                   (VStr "https://acme.example"))
                (mkWorld
                   [mkScanResult "1" (VStr "Acme Co")
                      (VStr "https://acme.example") (VStr "overwritten")
                      (VStr "scanning") Example.midnight
                      (Example.after_seconds 1)] [])
                Hdoc eq_refl) as (_ & Hrun & Hrow).
  split; [exact Hrun|].
  eexists. split; [exact Hrow|]. split; reflexivity.
Defined.

(** C10, on a name with white space around it and a blank [website]: the
    row has the name without the white space and no website, and the note
    says that a website was analyzed. *)
Lemma whitespace_is_normalised_witness :
  all_space "   " = true /\
  exists r,
    rows (snd (post_scan Example.midnight (VDict Example.blank_site)
                 Example.no_rows)) = [r] /\
    business_name r = VStr "Acme Co" /\
    website r = VNone.
Proof.
  split; [reflexivity|].
  assert (Hname : lookup "businessName" Example.blank_site =
                    Some (VStr "  Acme Co ")) by reflexivity.
  assert (Hsite : str_or_absent "website" Example.blank_site = true)
    by reflexivity.
  pose proof (whitespace_is_normalised Lib.urlparse Lib.dumps Lib.isoformat
                Lib.new_id Example.midnight Example.blank_site "  Acme Co "
                Example.no_rows Hname Hsite) as H.
  cbv zeta in H. destruct H as [Hstrip Hblank].
  assert (Hne : "  Acme Co " <> ""%string) by discriminate.
  assert (Hw : lookup "website" Example.blank_site = Some (VStr "   "))
    by reflexivity.
  assert (Hs : "   " <> ""%string) by discriminate.
  destruct (Hblank "   " Hne Hw Hs eq_refl) as (Hvalid & Hrows & Hnone & _).
  destruct (Hstrip Hvalid) as (_ & Hstripped & _).
  eexists. split; [exact Hrows|]. split; [exact Hstripped | exact Hnone].
Defined.

(** *** Examples of the further properties *)

(** A field the handler does not know changes nothing. *)
Lemma create_scan_reads_two_fields_witness :
  let more :=
    (Example.acme ++ [("plan", VStr "gold"); ("seats", VInt 3)])%list in
  more <> [] /\
  post_scan Example.midnight (VDict Example.acme) Example.no_rows =
  post_scan Example.midnight (VDict more) Example.no_rows.
Proof.
  cbv zeta. split; [discriminate|].
  apply (create_scan_reads_two_fields Lib.urlparse Lib.dumps Lib.isoformat
           Lib.new_id Example.midnight Example.acme
           (Example.acme ++ [("plan", VStr "gold"); ("seats", VInt 3)])%list
           Example.no_rows).
  - discriminate.
  - discriminate.
  - reflexivity.
  - reflexivity.
Defined.

(** A name that is a number, beside a well-formed website. *)
Lemma ill_typed_fields_are_500_witness :
  let d := [("businessName", VInt 7); ("website", VStr "https://acme.example")] in
  d <> [] /\
  post_scan Example.midnight (VDict d) Example.no_rows =
    (Ok internal_error_response, Example.no_rows).
Proof.
  cbv zeta. split; [discriminate|].
  apply (ill_typed_fields_are_500 Lib.urlparse Lib.dumps Lib.isoformat
           Lib.new_id Example.midnight
           [("businessName", VInt 7); ("website", VStr "https://acme.example")]
           Example.no_rows).
  - exact I.
  - discriminate.
Defined.

(** A name of three spaces. *)
Lemma blank_name_is_stored_empty_witness :
  all_space "   " = true /\
  exists r,
    rows (snd (post_scan Example.midnight
                 (VDict [("businessName", VStr "   ")]) Example.no_rows)) =
      [r] /\
    business_name r = VStr "".
Proof.
  split; [reflexivity|].
  destruct (blank_name_is_stored_empty Lib.urlparse Lib.dumps Lib.isoformat
              Lib.new_id Example.midnight [("businessName", VStr "   ")]
              "   " Example.no_rows)
    as (_ & E & Hname).
  - reflexivity.
  - discriminate.
  - reflexivity.
  - reflexivity.
  - eexists. split; [rewrite E; reflexivity | exact Hname].
Defined.

(** A website with white space around it is stored without it. *)
Lemma stored_website_is_valid_witness :
  let d := [("businessName", VStr "Acme Co");
            ("website", VStr "  https://acme.example ")] in
  validate_scan_request Lib.urlparse (VDict d) = Ok [] /\
  website (scanning_row Lib.dumps Lib.isoformat Lib.new_id Example.midnight d [])
    = VStr "https://acme.example" /\
  validate_url Lib.urlparse "https://acme.example" = true.
Proof.
  cbv zeta. split; [reflexivity|].
  destruct (stored_website_is_valid Lib.urlparse Lib.dumps Lib.isoformat
              Lib.new_id Example.midnight
              [("businessName", VStr "Acme Co");
               ("website", VStr "  https://acme.example ")]
              "Acme Co" Example.no_rows)
    as (_ & [[E _] | (_ & Hsite & Hvalid & _)]).
  - reflexivity.
  - reflexivity.
  - reflexivity.
  - discriminate E.
  - split; [exact Hsite | exact Hvalid].
Defined.

(** An insert in the empty table, without a status. *)
Lemma create_then_get_witness :
  exists r,
    storage_create_scan_result Lib.isoformat Lib.new_id Example.midnight
      [("businessName", VStr "Acme Co")] [] =
      (Ok (to_dict Lib.isoformat r), [r]) /\
    storage_get_scan_result Lib.isoformat (VStr "1") [r] =
      to_dict Lib.isoformat r.
Proof.
  destruct (create_then_get Lib.isoformat Lib.new_id Example.midnight
              [("businessName", VStr "Acme Co")] (VStr "Acme Co") [])
    as (r & E & Hid & Hget & _).
  - reflexivity.
  - intros [].
  - exists r. split; [exact E|]. rewrite Hid in Hget. exact Hget.
Defined.

(** An update of the status of the one row of a table. *)
Lemma update_then_get_witness :
  let r := mkScanResult "1" (VStr "Acme Co") VNone VNone (VStr "scanning")
             Example.midnight Example.midnight in
  let done := storage_update_scan_result Lib.isoformat
                (Example.after_seconds 2) (VStr "1")
                [("status", VStr "completed")] [r] in
  filter_by_id (VStr "1") [r] = Some r /\
  storage_get_scan_result Lib.isoformat (VStr "1") (snd done) = fst done.
Proof.
  cbv zeta. split; [reflexivity|].
  pose proof (update_then_get Lib.isoformat (Example.after_seconds 2)
                (VStr "1") [("status", VStr "completed")]
                [mkScanResult "1" (VStr "Acme Co") VNone VNone
                   (VStr "scanning") Example.midnight Example.midnight]
                (mkScanResult "1" (VStr "Acme Co") VNone VNone
                   (VStr "scanning") Example.midnight Example.midnight)
                eq_refl) as H.
  destruct (storage_update_scan_result _ _ _ _ _) as [record t'].
  exact (proj1 H).
Defined.

Lemma no_rows_well_formed : well_formed Example.no_rows.
Proof. split; [constructor | intros th s []]. Qed.

(** Two scans posted on the empty table, and the thread of the first
    resuming after its sleep. *)
Lemma run_well_formed_witness :
  well_formed Example.no_rows /\
  well_formed
    (serve_all
       [(Example.midnight, Arrives (PostScan (VDict Example.acme)));
        (Example.after_seconds 1,
         Arrives (PostScan (VDict Example.blank_site)));
        (Example.after_seconds 2, Resumes 0)]
       Example.no_rows).
Proof.
  split; [exact no_rows_well_formed|].
  apply (run_well_formed Lib.urlparse Lib.dumps Lib.loads Lib.isoformat
           Lib.new_id Example.oldest_first).
  - exact sample_new_id_fresh.
  - exact no_rows_well_formed.
Defined.

(** The request of the specification, a listing after one second and a
    fetch just before the two seconds are over. *)
Lemma scan_pending_before_delay_witness :
  Example.midnight + 1999999 < Example.midnight + completion_delay /\
  exists r,
    fst (serve (Example.midnight + 1999999) (GetResult (id r))
           (serve_all [(Example.after_seconds 1, Arrives GetResults)]
              (snd (serve Example.midnight (PostScan (VDict Example.acme))
                      Example.no_rows)))) =
      jsonify (to_dict Lib.isoformat r) 200 /\
    status r = VStr "scanning".
Proof.
  assert (Ht : Example.midnight + 1999999 < Example.midnight + completion_delay)
    by reflexivity.
  split; [exact Ht|].
  assert (Hk : threads_known Example.no_rows) by (intros th s []).
  assert (Hname : lookup "businessName" Example.acme = Some (VStr "Acme Co"))
    by reflexivity.
  assert (Hsite : str_or_absent "website" Example.acme = true)
    by reflexivity.
  assert (Hvalid : validate_scan_request Lib.urlparse (VDict Example.acme) =
                     Ok [])
    by reflexivity.
  assert (He : Forall (fun e : Time * event =>
                         fst e < Example.midnight + completion_delay)
                 [(Example.after_seconds 1, Arrives GetResults)])
    by (constructor; [reflexivity | constructor]).
  pose proof (scan_pending_before_delay Lib.urlparse Lib.dumps Lib.loads
                Lib.isoformat Lib.new_id Example.oldest_first
                Example.midnight Example.acme "Acme Co" Example.no_rows
                [(Example.after_seconds 1, Arrives GetResults)]
                (Example.midnight + 1999999)
                Hk sample_new_id_fresh Hname Hsite Hvalid He Ht) as H.
  cbv zeta in H. destruct H as (_ & Hfetch & Hstatus & _).
  eexists. split; [exact Hfetch | exact Hstatus].
Defined.

(** The paths of a bundle of two files: a file of the bundle, a route of
    the client, a path under the API prefix, and the root. *)
Example sample_static_paths :
  dispatch_static "dist" Example.bundle "assets/app.js" =
    Ok (mkResponse 200 (File "assets/app.js")) /\
  dispatch_static "dist" Example.bundle "dashboard" =
    Ok (mkResponse 200 (File "index.html")) /\
  dispatch_static "dist" Example.bundle "api/unknown" =
    Ok api_not_found_response /\
  dispatch_static "dist" Example.bundle "" =
    Ok (mkResponse 200 (File "index.html")) /\
  dispatch_static "dist" Example.no_bundle "dashboard" = Raise NotFound.
Proof. repeat split; reflexivity. Qed.
